(** * Traffic sign detection page (app.py): a shallow embedding

    The page script [main] of app.py is glue between Streamlit, OpenCV and an
    Ultralytics YOLO model.  It is embedded here as a function in a small
    monad that threads

    - the store of [st.cache_resource] (the memoised model handle),
    - the list of what the run put on the page and which external calls it
      made, in program order, and
    - an outcome: a value, or the Python exception that ended the run.

    The external libraries are a record [World] of functions; everything
    app.py itself does (the control flow, the constants, the format strings,
    the aggregates) is written out.

    Numbers.  The floats of the script (confidences, box coordinates, class
    indices as the tensors store them) are rationals [Q]: a float is taken
    at its exact value and float arithmetic as exact arithmetic. *)

From Stdlib Require Import ZArith QArith String Ascii List Lia DecimalString.
From stdpp Require Import base gmap strings list.

Open Scope string_scope.
Set Warnings "-register-all".

(** ** Python numbers and format strings *)

Module Py.

(** [a > b] on numbers. *)
Definition gt (a b : Q) : bool := negb (Qle_bool a b).

(** [int(x)] of a float: truncation towards zero. *)
Definition int (x : Q) : Z := Z.quot (Qnum x) (Zpos (Qden x)).

(** [str(n)] of an int. *)
Definition str_int (n : Z) : string := NilZero.string_of_int (Z.to_int n).

(** Rounding to the nearest integer, ties to even: what [format] does with
    the digits it drops. *)
Definition round_half_even (x : Q) : Z :=
  let n := Qnum x in
  let d := Zpos (Qden x) in
  let f := (n / d)%Z in
  let r := (2 * (n mod d))%Z in
  if (r <? d)%Z then f
  else if (d <? r)%Z then (f + 1)%Z
  else if Z.even f then f else (f + 1)%Z.

Definition Qabs (x : Q) : Q := Z.abs (Qnum x) # Qden x.

Fixpoint zeros (n : nat) : string :=
  match n with O => "" | S k => "0" ++ zeros k end.

(** [s.rjust(n, "0")]. *)
Definition zfill (n : nat) (s : string) : string :=
  zeros (n - String.length s) ++ s.

(** [format(x, ".{prec}f")]: sign, integer part, and [prec] digits. *)
Definition format_f (prec : nat) (x : Q) : string :=
  let p := (10 ^ Z.of_nat prec)%Z in
  let scaled := round_half_even (Qabs x * inject_Z p)%Q in
  let sign := if (Qnum x <? 0)%Z then "-" else "" in
  let frac := match prec with
              | O => ""
              | S _ => "." ++ zfill prec (str_int (scaled mod p))
              end in
  sign ++ str_int (scaled / p) ++ frac.

(** [format(x, ".{prec}%")]: the value times 100 in fixed notation, then a
    percent sign. *)
Definition format_pct (prec : nat) (x : Q) : string :=
  format_f prec (x * 100)%Q ++ "%".

(** [len(set(xs))] for a sequence of numbers: how many values are distinct. *)
Fixpoint set (xs : list Q) : list Q :=
  match xs with
  | [] => []
  | x :: r => if existsb (Qeq_bool x) r then set r else x :: set r
  end.

(** A float that may be NaN. *)
Inductive number := Num (q : Q) | NaN.

(** [np.mean(xs)]: the sum over the length; NaN for an empty array. *)
Definition mean (xs : list Q) : number :=
  match xs with
  | [] => NaN
  | _ => Num (Qred (fold_right Qplus 0 xs / inject_Z (Z.of_nat (length xs)))%Q)
  end.

(** [format(x, ".{prec}%")] of such a float. *)
Definition format_pct_number (prec : nat) (x : number) : string :=
  match x with
  | Num q => format_pct prec q
  | NaN => "nan%"
  end.

End Py.

(** ** Data *)

(** A decoded image: a NumPy array of pixels, height by width. *)
Record ndarray := mk_ndarray { height : Z; width : Z; pixels : list Z }.

(** A Python exception: its class and its message. *)
Record PyExc := Exc { exc_type : string; exc_msg : string }.

(** One element of [results.boxes].  [cls], [conf] and [xyxy] are the values
    [box.cls.cpu().numpy()[0]], [box.conf.cpu().numpy()[0]] and
    [box.xyxy.cpu().numpy()[0]]; the class index is stored as a float. *)
Record Box := mk_Box { cls : Q; conf : Q; xyxy : Q * Q * Q * Q }.

(** The [Results] object of one image: its boxes and what [plot()] draws. *)
Record Results := mk_Results { boxes : list Box; plot : ndarray }.

(** The loaded YOLO model: the label table [names] (a dict from class index
    to class name) and [predict(source=..., conf=...)], which returns one
    [Results] per image or raises. *)
Record Model := mk_Model {
  names : gmap Z string;
  predict : ndarray -> Q -> PyExc + list Results
}.

(** The libraries around the script. *)
Record World := mk_World {
  (** [YOLO(path)]: the model, or the exception of a failed load. *)
  YOLO : string -> PyExc + Model;
  (** [cv2.imdecode(np.frombuffer(b, np.uint8), cv2.IMREAD_COLOR)]: the
      image, [None] when the bytes do not decode, or an exception. *)
  cv2_imdecode : list Byte.byte -> PyExc + option ndarray;
  (** [cv2.resize(image, size)] of an image. *)
  cv2_resize : ndarray -> Z * Z -> ndarray;
  (** What [st.image(None, ...)] does: raises, or shows nothing. *)
  st_image_None : option PyExc;
  (** [str(x)] of a float, as an f-string field without a format spec. *)
  float_str : Q -> string
}.

(** ** The page *)

(** Layout containers entered by a [with] statement.  [column g i] is
    column [i] of the [g]-th [st.columns] call of the run. *)
Inductive Container :=
| column (group idx : nat)
| spinner (text : string)
| expander (label : string).

(** Calls that leave the script. *)
Inductive ExtCall :=
| call_YOLO (path : string)
| call_imdecode (buf : list Byte.byte)
| call_resize (size : Z * Z)
| call_predict (source : ndarray) (conf : Q)
| call_plot
| call_sleep (secs : Q).

(** What a run does, in program order: Streamlit elements, [with] blocks
    and external calls. *)
Inductive Event :=
| st_columns (spec : list Z)
| st_title (body : string)
| st_markdown (body : string) (unsafe_allow_html : bool)
| st_file_uploader (label : string) (type : list string)
| st_image (image : ndarray) (channels : string)
| st_button (label : string)
| st_progress (value : Z)
| progress_update (value : Z)
| st_warning (body : string)
| st_code (body : string)
| st_metric (label value : string)
| inside (c : Container) (body : list Event)
| ext (c : ExtCall).

(** ** The monad of a run *)

(** The result of running a piece of the script: what it put on the page,
    the store of [st.cache_resource] afterwards, and a value or the
    exception that ended it.  What was shown before an exception stays. *)
Record Run (A : Type) := mk_Run {
  page : list Event;
  store : option Model;
  outcome : PyExc + A
}.
Arguments mk_Run {A} _ _ _.
Arguments page {A} _.
Arguments store {A} _.
Arguments outcome {A} _.

Definition M (A : Type) : Type := option Model -> Run A.

Definition ret {A} (a : A) : M A := fun s => mk_Run [] s (inr a).

Definition bind {A B} (m : M A) (k : A -> M B) : M B :=
  fun s =>
    let r := m s in
    match outcome r with
    | inl e => mk_Run (page r) (store r) (inl e)
    | inr a =>
        let r' := k a (store r) in
        mk_Run (page r ++ page r') (store r') (outcome r')
    end.

#[global] Instance M_ret : MRet M := @ret.
#[global] Instance M_bind : MBind M := fun A B k m => bind m k.

Definition raise {A} (e : PyExc) : M A := fun s => mk_Run [] s (inl e).

Definition emit (ev : Event) : M unit := fun s => mk_Run [ev] s (inr tt).

(** [with c: body]. *)
Definition with_ {A} (c : Container) (body : M A) : M A :=
  fun s => let r := body s in mk_Run [inside c (page r)] (store r) (outcome r).

(** An external call that returns a value or raises. *)
Definition call {A} (c : ExtCall) (r : PyExc + A) : M A :=
  emit (ext c) ;; match r with inl e => raise e | inr a => mret a end.

(** [@st.cache_resource] on a function without arguments: the first
    successful call stores its value, later calls return the stored one. *)
Definition cache_resource (f : M Model) : M Model :=
  fun s =>
    match s with
    | Some m => mk_Run [] s (inr m)
    | None =>
        let r := f s in
        match outcome r with
        | inl e => mk_Run (page r) (store r) (inl e)
        | inr m => mk_Run (page r) (Some m) (inr m)
        end
    end.

(** ** app.py *)

Section App.

Context (w : World).

Definition dq : string := String "034"%char EmptyString.
Definition nl : string := String "010"%char EmptyString.

(** Line 49: the colour of the bar. *)
Definition confidence_color (confidence : Q) : string :=
  if Py.gt confidence 0.7 then "green"
  else if Py.gt confidence 0.5 then "orange"
  else "red".

(** Lines 48-55. *)
Definition create_confidence_bar (confidence : Q) : string :=
  let color := confidence_color confidence in
  nl ++
  "        <div class=" ++ dq ++ "confidence-meter" ++ dq ++ ">" ++ nl ++
  "            <div style=" ++ dq ++ "width:" ++ float_str w (confidence * 100)%Q ++
  "%; height:100%; background:" ++ color ++ "; transition:width 0.5s;" ++ dq ++ ">" ++ nl ++
  "            </div>" ++ nl ++
  "        </div>" ++ nl ++
  "    ".

(** Lines 44-46. *)
Definition load_model : M Model :=
  cache_resource (call (call_YOLO "best.pt") (YOLO w "best.pt")).

(** [st.image(image, channels="BGR", use_container_width=True)], where
    [image] may be [None]. *)
Definition show_image (image : option ndarray) : M unit :=
  match image with
  | Some a => emit (st_image a "BGR")
  | None => match st_image_None w with Some e => raise e | None => mret tt end
  end.

(** [cv2.resize(image, size)], where [image] may be [None]. *)
Definition resize (image : option ndarray) (size : Z * Z) : M ndarray :=
  call (call_resize size)
    match image with
    | Some a => inr (cv2_resize w a size)
    | None => inl (Exc "cv2.error" "resize: the source image is empty")
    end.

(** [xs[0]]. *)
Definition first {A} (xs : list A) : M A :=
  match xs with
  | x :: _ => mret x
  | [] => raise (Exc "IndexError" "list index out of range")
  end.

(** [names[k]]. *)
Definition getitem (d : gmap Z string) (k : Z) : M string :=
  match d !! k with
  | Some v => mret v
  | None => raise (Exc "KeyError" (Py.str_int k))
  end.

(** Lines 92-95: the progress bar. *)
Fixpoint progress_loop (i : nat) (n : nat) : M unit :=
  match n with
  | O => mret tt
  | S n' =>
      call (call_sleep 0.01) (inr tt) ;;
      emit (progress_update (Z.of_nat i + 1)) ;;
      progress_loop (S i) n'
  end.

Definition progress_bar : M unit :=
  emit (st_progress 0) ;; progress_loop 0 100.

(** Lines 112-124: the body of the loop, for the box at position [idx]. *)
Definition detection_panel (model : Model) (idx : nat) (box : Box) : M unit :=
  let class_id := cls box in
  let conf := conf box in
  class_name ← getitem (names model) (Py.int class_id) ;
  with_ (expander ("Detection " ++ Py.str_int (Z.of_nat idx + 1) ++ ": " ++ class_name))
    (emit (st_markdown ("**Confidence Score:** " ++ Py.format_pct 2 conf) false) ;;
     emit (st_markdown (create_confidence_bar conf) true) ;;
     let '(x1, y1, x2, y2) := xyxy box in
     emit (st_markdown "**Location Details:**" false) ;;
     emit (st_code ("X1: " ++ Py.format_f 1 x1 ++ ", Y1: " ++ Py.format_f 1 y1 ++ nl ++
                    "X2: " ++ Py.format_f 1 x2 ++ ", Y2: " ++ Py.format_f 1 y2))).

(** Line 111: [for idx, box in enumerate(results.boxes)], from [idx]. *)
Fixpoint detection_panels (model : Model) (idx : nat) (bs : list Box) : M unit :=
  match bs with
  | [] => mret tt
  | box :: rest =>
      detection_panel model idx box ;; detection_panels model (S idx) rest
  end.

(** Lines 110-126. *)
Definition detailed_analysis (model : Model) (results : Results) : M unit :=
  if (0 <? length (boxes results))%nat
  then detection_panels model 0 (boxes results)
  else emit (st_warning "No traffic signs detected in this image.").

(** Lines 135 and 138: the two aggregates. *)
Definition avg_conf (results : Results) : Py.number :=
  if (0 <? length (boxes results))%nat
  then Py.mean (map conf (boxes results)) else Py.Num 0.

Definition unique_classes (results : Results) : Z :=
  if (0 <? length (boxes results))%nat
  then Z.of_nat (length (Py.set (map cls (boxes results)))) else 0%Z.

(** Lines 131-139. *)
Definition summary_metrics (results : Results) : M unit :=
  emit (st_columns [1; 1; 1]%Z) ;;
  with_ (column 2 0)
    (emit (st_metric "Total Detections"
             (Py.str_int (Z.of_nat (length (boxes results)))))) ;;
  with_ (column 2 1)
    (emit (st_metric "Average Confidence" (Py.format_pct_number 2 (avg_conf results)))) ;;
  with_ (column 2 2)
    (emit (st_metric "Unique Sign Types" (Py.str_int (unique_classes results)))).

(** Lines 98-139: what the script does once the progress bar is full. *)
Definition analysis (model : Model) (image : option ndarray) : M unit :=
  image_resized ← resize image (640, 640)%Z ;
  batch ← call (call_predict image_resized 0.25) (predict model image_resized 0.25) ;
  results ← first batch ;
  plotted_image ← call call_plot (inr (plot results)) ;
  with_ (column 1 1)
    (emit (st_markdown "### Detection Results" false) ;;
     emit (st_image plotted_image "BGR")) ;;
  emit (st_markdown "<div class='detection-box'>" true) ;;
  emit (st_markdown "### 📊 Detailed Analysis" false) ;;
  detailed_analysis model results ;;
  emit (st_markdown "</div>" true) ;;
  summary_metrics results.

(** Lines 57-147.  [uploaded_file] is what [st.file_uploader] returns in
    this run (the bytes of the file, or [None]) and [clicked] is what
    [st.button] returns when the script reaches it. *)
Definition main (uploaded_file : option (list Byte.byte)) (clicked : bool) : M unit :=
  emit (st_columns [1; 2; 1]%Z) ;;
  with_ (column 0 1)
    (emit (st_title "🚦 Traffic Sign Detection") ;;
     emit (st_markdown "### Advanced AI-Powered Traffic Sign Recognition" false)) ;;
  model ← with_ (spinner "Loading AI Model...") load_model ;
  emit (st_markdown "<div class='upload-box'>" true) ;;
  emit (st_file_uploader "Drop your image here or click to upload"
          ["jpg"; "jpeg"; "png"]) ;;
  emit (st_markdown "</div>" true) ;;
  match uploaded_file with
  | Some image_bytes =>
      image ← call (call_imdecode image_bytes) (cv2_imdecode w image_bytes) ;
      emit (st_columns [1; 1]%Z) ;;
      with_ (column 1 0)
        (emit (st_markdown "### Original Image" false) ;;
         show_image image) ;;
      emit (st_button "🔍 Analyze Image") ;;
      if clicked
      then with_ (spinner "Analyzing image...")
             (progress_bar ;; analysis model image)
      else mret tt
  | None => mret tt
  end ;;
  emit (st_markdown "---" false) ;;
  emit (st_markdown
          ("Made with ❤️ using YOLOv8 and Streamlit | " ++
           "[GitHub](https://github.com) | " ++
           "[Report Issue](https://github.com/issues)") false).

(** The script with lines 92-95 (the progress bar) taken out, all else as
    in [main]. *)
Definition main_without_progress
  (uploaded_file : option (list Byte.byte)) (clicked : bool) : M unit :=
  emit (st_columns [1; 2; 1]%Z) ;;
  with_ (column 0 1)
    (emit (st_title "🚦 Traffic Sign Detection") ;;
     emit (st_markdown "### Advanced AI-Powered Traffic Sign Recognition" false)) ;;
  model ← with_ (spinner "Loading AI Model...") load_model ;
  emit (st_markdown "<div class='upload-box'>" true) ;;
  emit (st_file_uploader "Drop your image here or click to upload"
          ["jpg"; "jpeg"; "png"]) ;;
  emit (st_markdown "</div>" true) ;;
  match uploaded_file with
  | Some image_bytes =>
      image ← call (call_imdecode image_bytes) (cv2_imdecode w image_bytes) ;
      emit (st_columns [1; 1]%Z) ;;
      with_ (column 1 0)
        (emit (st_markdown "### Original Image" false) ;;
         show_image image) ;;
      emit (st_button "🔍 Analyze Image") ;;
      if clicked
      then with_ (spinner "Analyzing image...") (analysis model image)
      else mret tt
  | None => mret tt
  end ;;
  emit (st_markdown "---" false) ;;
  emit (st_markdown
          ("Made with ❤️ using YOLOv8 and Streamlit | " ++
           "[GitHub](https://github.com) | " ++
           "[Report Issue](https://github.com/issues)") false).

End App.

(** ** Reading a page *)

(** Every event of a page, blocks before their contents, in program order. *)
Fixpoint flatten_event (e : Event) : list Event :=
  match e with
  | inside c body => e :: flat_map flatten_event body
  | _ => [e]
  end.

Definition flatten (evs : list Event) : list Event := flat_map flatten_event evs.

(** The page with the events that fail [keep] taken out, at any depth; the
    blocks themselves stay. *)
Fixpoint prune_event (keep : Event -> bool) (e : Event) : list Event :=
  match e with
  | inside c body => [inside c (flat_map (prune_event keep) body)]
  | _ => if keep e then [e] else []
  end.

Definition prune (keep : Event -> bool) (evs : list Event) : list Event :=
  flat_map (prune_event keep) evs.

(** The external calls of a run. *)
Definition calls (evs : list Event) : list ExtCall :=
  flat_map (fun e => match e with ext c => [c] | _ => [] end) (flatten evs).

(** The labels of the expanders (the detection panels) of a page. *)
Definition expander_labels (evs : list Event) : list string :=
  flat_map (fun e => match e with inside (expander l) _ => [l] | _ => [] end)
    (flatten evs).

(** The expanders (the detection panels) of a page, whole. *)
Definition expanders (evs : list Event) : list Event :=
  flat_map (fun e => match e with inside (expander _) _ => [e] | _ => [] end)
    (flatten evs).

(** The [st.metric] elements of a page, as (label, value). *)
Definition metrics (evs : list Event) : list (string * string) :=
  flat_map (fun e => match e with st_metric l v => [(l, v)] | _ => [] end)
    (flatten evs).

(** The [st.warning] elements of a page. *)
Definition warnings (evs : list Event) : list string :=
  flat_map (fun e => match e with st_warning b => [b] | _ => [] end)
    (flatten evs).

(** The images shown on a page. *)
Definition images (evs : list Event) : list ndarray :=
  flat_map (fun e => match e with st_image a _ => [a] | _ => [] end)
    (flatten evs).

Definition is_progress (e : Event) : bool :=
  match e with
  | st_progress _ | progress_update _ | ext (call_sleep _) => true
  | _ => false
  end.

Definition is_ext (e : Event) : bool :=
  match e with ext _ => true | _ => false end.

(** The page without the progress bar and its delays. *)
Definition without_progress (evs : list Event) : list Event :=
  prune (fun e => negb (is_progress e)) evs.

(** What the user sees: the page without the external calls. *)
Definition screen (evs : list Event) : list Event :=
  prune (fun e => negb (is_ext e)) evs.

(** The events of lines 92-95, from iteration [i], [n] iterations. *)
Fixpoint progress_events (i n : nat) : list Event :=
  match n with
  | O => []
  | S n' =>
      ext (call_sleep 0.01) :: progress_update (Z.of_nat i + 1)
        :: progress_events (S i) n'
  end.

(** ** Properties of a piece of the script *)

(** Every event of [m], at any depth and from any store, satisfies [P]. *)
Definition emits (P : Event -> Prop) {A} (m : M A) : Prop :=
  forall s, Forall P (flatten (page (m s))).

(** [m] leaves the store of [st.cache_resource] as it found it. *)
Definition keeps {A} (m : M A) : Prop := forall s, store (m s) = s.

(** The constants of the script: the model file, the size of the resize
    and the confidence threshold. *)
Definition fixed_constants (e : Event) : Prop :=
  match e with
  | ext (call_YOLO path) => path = "best.pt"
  | ext (call_resize size) => size = (640, 640)%Z
  | ext (call_predict _ conf) => conf = 0.25%Q
  | _ => True
  end.

(** [m1] does what [m2] does, apart from progress-bar events: the pages
    agree once the progress bar and its delays are taken out of the first,
    and the stores and outcomes agree. *)
Definition same_but_progress {A} (m1 m2 : M A) : Prop :=
  forall s,
    without_progress (page (m1 s)) = page (m2 s) /\
    store (m1 s) = store (m2 s) /\
    outcome (m1 s) = outcome (m2 s).

(** An event of a run that does not analyse: no resize, inference, plot or
    delay, no progress bar, no analysis spinner, no results column, no panel,
    notice, coordinates or metric. *)
Definition no_analysis (e : Event) : Prop :=
  match e with
  | ext (call_YOLO _) | ext (call_imdecode _) => True
  | ext _ => False
  | st_progress _ | progress_update _ => False
  | st_warning _ | st_code _ | st_metric _ _ => False
  | inside (expander _) _ => False
  | inside (spinner text) _ => text = "Loading AI Model..."
  | inside (column group idx) _ => (group = 0 \/ (group = 1 /\ idx = 0))%nat
  | st_columns spec => spec = [1; 2; 1]%Z \/ spec = [1; 1]%Z
  | _ => True
  end.

(** The colours of the bar, from the lowest tier to the highest; [None] for
    any other string. *)
Definition color_rank (color : string) : option nat :=
  if String.eqb color "red" then Some 0%nat
  else if String.eqb color "orange" then Some 1%nat
  else if String.eqb color "green" then Some 2%nat
  else None.

(** The values the progress bar is given, in order. *)
Definition progress_values (evs : list Event) : list Z :=
  flat_map (fun e => match e with
                     | st_progress v | progress_update v => [v]
                     | _ => []
                     end)
    (flatten evs).

(** The two elements of the footer (lines 142-147). *)
Definition footer : list Event :=
  [st_markdown "---" false;
   st_markdown
     ("Made with ❤️ using YOLOv8 and Streamlit | " ++
      "[GitHub](https://github.com) | " ++
      "[Report Issue](https://github.com/issues)") false].

(** An event that is neither of the two of the footer. *)
Definition not_footer (e : Event) : Prop := ~ In e footer.

(** An event that is not a load of the model. *)
Definition not_load (e : Event) : Prop :=
  match e with
  | ext (call_YOLO _) => False
  | _ => True
  end.

(** A piece of the script that ends with the footer when it completes and
    shows no footer when it raises. *)
Definition footer_at_end {A} (m : M A) : Prop :=
  forall s,
    match outcome (m s) with
    | inr _ =>
        exists body,
          page (m s) = (body ++ footer)%list /\
          Forall not_footer (flatten body)
    | inl _ => Forall not_footer (flatten (page (m s)))
    end.

(** ** The presenter, as the specification words it *)

(** The name the label table gives the class of a box. *)
Definition class_name_of (model : Model) (box : Box) : string :=
  default "" (names model !! Py.int (cls box)).

(** The label table has a name for the class of the box. *)
Definition labelled (model : Model) (box : Box) : Prop :=
  is_Some (names model !! Py.int (cls box)).

(** The panel of one detection: an expander titled with the position and
    the class name, holding the confidence as a percentage, the coloured
    bar and the box coordinates. *)
Definition panel (w : World) (model : Model) (idx : nat) (box : Box) : Event :=
  let '(x1, y1, x2, y2) := xyxy box in
  inside
    (expander ("Detection " ++ Py.str_int (Z.of_nat idx + 1) ++ ": " ++
               class_name_of model box))
    [st_markdown ("**Confidence Score:** " ++ Py.format_pct 2 (conf box)) false;
     st_markdown (create_confidence_bar w (conf box)) true;
     st_markdown "**Location Details:**" false;
     st_code ("X1: " ++ Py.format_f 1 x1 ++ ", Y1: " ++ Py.format_f 1 y1 ++ nl ++
              "X2: " ++ Py.format_f 1 x2 ++ ", Y2: " ++ Py.format_f 1 y2)].

(** One panel per detection, in the order of the sequence, numbered from
    [idx + 1]. *)
Definition panels_from (w : World) (model : Model) (idx : nat) (bs : list Box)
  : list Event :=
  imap (fun i box => panel w model (idx + i) box) bs.

(** The tier of a colour, in the words of the specification. *)
Inductive Tier := high | medium | low.

Definition tier_of_color (color : string) : option Tier :=
  if String.eqb color "green" then Some high
  else if String.eqb color "orange" then Some medium
  else if String.eqb color "red" then Some low
  else None.

Definition confidence_tier (confidence : Q) : option Tier :=
  tier_of_color (confidence_color confidence).



(** ** A stub world *)

Module Stub.

Definition upload : list Byte.byte := [Byte.xff; Byte.xd8; Byte.xff; Byte.xe0].
Definition truncated : list Byte.byte := [Byte.xff; Byte.xd8].

Definition decoded : ndarray := mk_ndarray 480 640 [0; 0; 0]%Z.
Definition resized : ndarray := mk_ndarray 640 640 [0; 0; 0]%Z.
Definition plotted : ndarray := mk_ndarray 640 640 [255; 0; 0]%Z.

Definition label_table : gmap Z string :=
  <[0%Z := "stop"]> (<[1%Z := "yield"]> ∅).

Definition box1 : Box := mk_Box 0 0.9 (10, 20, 110, 120)%Q.
Definition box2 : Box := mk_Box 1 0.6 (200, 50, 260.5, 110.25)%Q.
Definition box3 : Box := mk_Box 0 0.4 (300, 300, 400, 400)%Q.

Definition three : Results := mk_Results [box1; box2; box3] plotted.
Definition none : Results := mk_Results [] plotted.

(** A capability that answers with the same results for every image. *)
Definition model_of (r : Results) : Model :=
  mk_Model label_table (fun _ _ => inr [r]).

(** A capability that fails. *)
Definition failing_model : Model :=
  mk_Model label_table
    (fun _ _ => inl (Exc "RuntimeError" "inference failed")).



(** A capability that answers with an empty batch. *)
Definition empty_batch_model : Model :=
  mk_Model label_table (fun _ _ => inr []).

Definition decode (buf : list Byte.byte) : PyExc + option ndarray :=
  if (2 <? length buf)%nat then inr (Some decoded) else inr None.

Definition world_of (m : Model) : World :=
  mk_World (fun _ => inr m) decode (fun _ _ => resized)
    (Some (Exc "AttributeError" "'NoneType' object has no attribute 'shape'"))
    (Py.format_f 1).

(** A world in which the weights file cannot be loaded. *)
Definition no_weights : World :=
  mk_World (fun path => inl (Exc "FileNotFoundError" path)) decode
    (fun _ _ => resized) None (Py.format_f 1).

End Stub.

(** * Properties *)

(** ** The format strings on sample values *)

Example format_pct_ex1 : Py.format_pct 2 (9 # 10)%Q = "90.00%".
Proof. reflexivity. Qed.
Example format_pct_ex2 : Py.format_pct 2 0%Q = "0.00%".
Proof. reflexivity. Qed.
Example format_pct_ex3 : Py.format_pct 2 (19 # 30)%Q = "63.33%".
Proof. reflexivity. Qed.
Example format_pct_ex4 : Py.format_pct 2 (2 # 3)%Q = "66.67%".
Proof. reflexivity. Qed.
Example format_f_ex1 : Py.format_f 1 (12345 # 100)%Q = "123.4".
Proof. reflexivity. Qed.
Example format_f_ex2 : Py.format_f 1 (-(5 # 100))%Q = "-0.0".
Proof. reflexivity. Qed.
Example format_f_ex3 : Py.format_f 1 (7 # 2)%Q = "3.5".
Proof. reflexivity. Qed.
Example format_f_ex4 : Py.format_f 1 (25 # 100)%Q = "0.2".
Proof. reflexivity. Qed.
Example format_f_ex5 : Py.format_f 1 (75 # 100)%Q = "0.8".
Proof. reflexivity. Qed.
Example py_int_ex : Py.int (-(7 # 2))%Q = (-3)%Z /\ Py.int (7 # 2)%Q = 3%Z.
Proof. split; reflexivity. Qed.
Example py_set_ex : length (Py.set [1; 2 # 2; 3; 1]%Q) = 2%nat.
Proof. reflexivity. Qed.

(** ** Running the monad *)

Lemma run_bind_ok {A B} (m : M A) (k : A -> M B) s p s' a :
  m s = mk_Run p s' (inr a) ->
  (m ≫= k) s = mk_Run (p ++ page (k a s')) (store (k a s')) (outcome (k a s')).
Proof. intros H. unfold mbind, M_bind, bind. rewrite H. reflexivity. Qed.

Lemma run_bind_exc {A B} (m : M A) (k : A -> M B) s p s' e :
  m s = mk_Run p s' (inl e) ->
  (m ≫= k) s = mk_Run p s' (inl e).
Proof. intros H. unfold mbind, M_bind, bind. rewrite H. reflexivity. Qed.

Lemma run_eta {A} (r : Run A) : mk_Run (page r) (store r) (outcome r) = r.
Proof. destruct r; reflexivity. Qed.

Lemma run_bind_emit {B} ev (k : M B) s :
  (emit ev ;; k) s = mk_Run (ev :: page (k s)) (store (k s)) (outcome (k s)).
Proof. reflexivity. Qed.

Lemma run_with {A} c (body : M A) s :
  with_ c body s =
  mk_Run [inside c (page (body s))] (store (body s)) (outcome (body s)).
Proof. reflexivity. Qed.

(** The progress bar never fails and leaves the store alone. *)
Lemma progress_loop_run n : forall i s,
  progress_loop i n s = mk_Run (progress_events i n) s (inr tt).
Proof.
  induction n as [|n IH]; intros i s; [reflexivity|].
  cbn [progress_loop progress_events].
  unfold call. unfold mbind, M_bind, bind. cbn. rewrite IH. reflexivity.
Qed.

Lemma progress_bar_run s :
  progress_bar s = mk_Run (st_progress 0 :: progress_events 0 100) s (inr tt).
Proof.
  unfold progress_bar. rewrite run_bind_emit, progress_loop_run. reflexivity.
Qed.

(** ** The confidence tiers (lines 48-55) *)

Lemma gt_spec (a b : Q) : Py.gt a b = true <-> (b < a)%Q.
Proof.
  unfold Py.gt. rewrite negb_true_iff.
  destruct (Qle_bool a b) eqn:E.
  - apply Qle_bool_iff in E. split; [discriminate|]. intros H.
    exfalso. exact (Qlt_not_le _ _ H E).
  - split; [|reflexivity]. intros _. apply Qnot_le_lt. intros H.
    apply Qle_bool_iff in H. congruence.
Qed.

Lemma confidence_color_cases (c : Q) :
  ((7 # 10 < c)%Q /\ confidence_color c = "green") \/
  ((5 # 10 < c)%Q /\ (c <= 7 # 10)%Q /\ confidence_color c = "orange") \/
  ((c <= 5 # 10)%Q /\ confidence_color c = "red").
Proof.
  unfold confidence_color.
  destruct (Py.gt c 0.7) eqn:E1.
  - left. split; [|reflexivity]. apply gt_spec in E1. exact E1.
  - destruct (Py.gt c 0.5) eqn:E2.
    + right; left. apply gt_spec in E2. repeat split; [exact E2|].
      apply Qnot_lt_le. intros H. apply (gt_spec c 0.7) in H. congruence.
    + right; right. split; [|reflexivity].
      apply Qnot_lt_le. intros H. apply (gt_spec c 0.5) in H. congruence.
Qed.

(** C1, as the code has it.  The colour (and so the tier) depends on the
    confidence alone: above 0.7 it is green (high), above 0.5 and up to 0.7
    orange (medium), up to 0.5 red (low).  So 0.85 is high, 0.6 medium and
    0.3 low, and the two boundary values belong to the lower tier: exactly
    0.7 is medium and exactly 0.5 is low. *)
Theorem confidence_tier_thresholds (c : Q) :
  (confidence_tier c = Some high <-> (0.7 < c)%Q) /\
  (confidence_tier c = Some medium <-> (0.5 < c)%Q /\ (c <= 0.7)%Q) /\
  (confidence_tier c = Some low <-> (c <= 0.5)%Q) /\
  confidence_color 0.85 = "green" /\
  confidence_color 0.6 = "orange" /\
  confidence_color 0.3 = "red" /\
  confidence_color 0.7 = "orange" /\
  confidence_color 0.5 = "red".
Proof.
  split; [|split; [|split; [|repeat split]]].
  - unfold confidence_tier.
    destruct (confidence_color_cases c) as [[H E]|[(H1 & H2 & E)|[H E]]];
      rewrite E; cbn; split; intros G; try discriminate; try exact H.
    + reflexivity.
    + exfalso. exact (Qlt_not_le _ _ G H2).
    + exfalso. apply (Qlt_not_le _ _ G). apply Qle_trans with (5 # 10)%Q; [exact H|].
      discriminate.
  - unfold confidence_tier.
    destruct (confidence_color_cases c) as [[H E]|[(H1 & H2 & E)|[H E]]];
      rewrite E; cbn; split; intros G; try discriminate.
    + destruct G as [_ G]. exfalso. exact (Qlt_not_le _ _ H G).
    + split; assumption.
    + reflexivity.
    + destruct G as [G _]. exfalso. exact (Qlt_not_le _ _ G H).
  - unfold confidence_tier.
    destruct (confidence_color_cases c) as [[H E]|[(H1 & H2 & E)|[H E]]];
      rewrite E; cbn; split; intros G; try discriminate; try exact H.
    + exfalso. apply (Qlt_not_le _ _ H). apply Qle_trans with (5 # 10)%Q; [exact G|].
      discriminate.
    + exfalso. exact (Qlt_not_le _ _ H1 G).
    + reflexivity.
Qed.

(** C1, as the specification has it, fails at the boundaries: a confidence
    of exactly 0.7 is not in the high tier and one of exactly 0.5 is not in
    the medium tier. *)
Lemma confidence_tier_boundaries_exclusive :
  ~ (confidence_tier 0.85 = Some high /\
     confidence_tier 0.6 = Some medium /\
     confidence_tier 0.3 = Some low /\
     confidence_tier 0.7 = Some high /\
     confidence_tier 0.5 = Some medium).
Proof. intros (_ & _ & _ & H & _). vm_compute in H. discriminate. Qed.

(** ** The detection panels (lines 110-126) *)

Section Presenter.

Context (w : World) (model : Model).

Lemma detection_panel_run idx box s :
  labelled model box ->
  detection_panel w model idx box s = mk_Run [panel w model idx box] s (inr tt).
Proof.
  intros [name Hname].
  unfold detection_panel, panel, class_name_of, getitem.
  rewrite Hname. destruct (xyxy box) as [[[x1 y1] x2] y2]. reflexivity.
Qed.

Lemma detection_panels_run bs : forall idx s,
  Forall (labelled model) bs ->
  detection_panels w model idx bs s = mk_Run (panels_from w model idx bs) s (inr tt).
Proof.
  induction bs as [|box rest IH]; intros idx s Hall; [reflexivity|].
  inversion Hall as [|? ? Hbox Hrest]; subst.
  cbn [detection_panels].
  erewrite run_bind_ok by (apply detection_panel_run; exact Hbox).
  rewrite IH by exact Hrest. cbn [page store outcome].
  unfold panels_from. cbn [imap app]. rewrite Nat.add_0_r.
  f_equal. f_equal. apply imap_ext. intros i x _. cbn. f_equal. lia.
Qed.

Lemma expander_labels_panels bs : forall idx,
  length (expander_labels (panels_from w model idx bs)) = length bs.
Proof.
  induction bs as [|box rest IH]; intros idx; [reflexivity|].
  unfold panels_from. cbn [imap].
  replace (imap ((fun i b => panel w model (idx + i) b) ∘ S) rest)
    with (panels_from w model (S idx) rest)
    by (apply imap_ext; intros i x _; cbn; f_equal; lia).
  specialize (IH (S idx)).
  unfold expander_labels, flatten in *.
  cbn [flat_map]. rewrite flat_map_app, length_app, IH.
  unfold panel. destruct (xyxy box) as [[[x1 y1] x2] y2]. reflexivity.
Qed.

End Presenter.

(** C2.  When the label table names the class of every detection, the
    presenter shows the panels of the detections, one each, in the order of
    the sequence and numbered from 1, so there are as many panels as
    detections; for an empty sequence it shows the one notice that nothing
    was detected instead. *)
Theorem detailed_analysis_panels (w : World) (model : Model) (results : Results)
    (s : option Model) :
  Forall (labelled model) (boxes results) ->
  let r := detailed_analysis w model results s in
  outcome r = inr tt /\
  page r = match boxes results with
           | [] => [st_warning "No traffic signs detected in this image."]
           | bs => panels_from w model 0 bs
           end /\
  length (expander_labels (page r)) = length (boxes results) /\
  warnings (page r) = match boxes results with
                      | [] => ["No traffic signs detected in this image."]
                      | _ => []
                      end.
Proof.
  intros Hall r. subst r. unfold detailed_analysis.
  destruct (boxes results) as [|box rest] eqn:E.
  - cbn. repeat split; reflexivity.
  - replace (0 <? length (box :: rest))%nat with true by reflexivity.
    rewrite detection_panels_run by exact Hall. cbn [page outcome].
    repeat split.
    + apply expander_labels_panels.
    + generalize 0%nat. revert Hall. generalize (box :: rest). clear.
      induction l as [|b l IH]; intros Hall n; [reflexivity|].
      inversion Hall; subst.
      unfold panels_from. cbn [imap].
      replace (imap ((fun i b => panel w model (n + i) b) ∘ S) l)
        with (panels_from w model (S n) l)
        by (apply imap_ext; intros i x _; cbn; f_equal; lia).
      specialize (IH ltac:(assumption) (S n)).
      unfold warnings, flatten in *. cbn [flat_map].
      rewrite flat_map_app, IH.
      unfold panel. destruct (xyxy b) as [[[x1 y1] x2] y2]. reflexivity.
Qed.

(** Witness for C2: the three detections of the stub. *)
Lemma detailed_analysis_panels_witness :
  let model := Stub.model_of Stub.three in
  let r := detailed_analysis (Stub.world_of model) model Stub.three None in
  outcome r = inr tt /\
  page r = panels_from (Stub.world_of model) model 0 (boxes Stub.three) /\
  length (expander_labels (page r)) = 3%nat /\
  warnings (page r) = [].
Proof.
  apply (detailed_analysis_panels
           (Stub.world_of (Stub.model_of Stub.three))
           (Stub.model_of Stub.three) Stub.three None).
  repeat constructor; vm_compute; eauto.
Defined.

(** ** The summary metrics (lines 131-139) *)

Lemma mean_nonempty (xs : list Q) : xs <> [] -> Py.mean xs <> Py.NaN.
Proof. destruct xs; [congruence|]. intros _. discriminate. Qed.

Lemma avg_conf_defined (results : Results) : avg_conf results <> Py.NaN.
Proof.
  unfold avg_conf. destruct (boxes results) as [|b bs]; [discriminate|].
  cbn [length Nat.ltb Nat.leb]. apply mean_nonempty. discriminate.
Qed.

(** C3.  For a result without detections the aggregates are defined and
    zero: the mean confidence is the number 0, shown as 0.00%, the count
    of distinct classes is 0, shown as 0, and neither the panels nor the
    metrics raise. *)
Theorem empty_result_metrics (w : World) (model : Model) (plotted : ndarray)
    (s : option Model) :
  let results := mk_Results [] plotted in
  avg_conf results = Py.Num 0 /\
  unique_classes results = 0%Z /\
  avg_conf results <> Py.NaN /\
  metrics (page (summary_metrics results s)) =
    [("Total Detections", "0"); ("Average Confidence", "0.00%");
     ("Unique Sign Types", "0")] /\
  outcome (summary_metrics results s) = inr tt /\
  outcome (detailed_analysis w model results s) = inr tt.
Proof. cbn. repeat split; try reflexivity. discriminate. Qed.

(** ** The cached model (lines 44-46) *)

Lemma load_model_cached (w : World) (m : Model) :
  load_model w (Some m) = mk_Run [] (Some m) (inr m).
Proof. reflexivity. Qed.

Lemma load_model_fresh (w : World) (m : Model) :
  YOLO w "best.pt" = inr m ->
  load_model w None = mk_Run [ext (call_YOLO "best.pt")] (Some m) (inr m).
Proof.
  intros H. unfold load_model, cache_resource, call.
  unfold mbind, M_bind, bind. cbn. rewrite H. reflexivity.
Qed.

Lemma load_model_failed (w : World) (e : PyExc) :
  YOLO w "best.pt" = inl e ->
  load_model w None = mk_Run [ext (call_YOLO "best.pt")] None (inl e).
Proof.
  intros H. unfold load_model, cache_resource, call.
  unfold mbind, M_bind, bind. cbn. rewrite H. reflexivity.
Qed.

(** A load that returns a model leaves exactly that model in the store. *)
Lemma load_model_ok (w : World) (s : option Model) (m : Model) :
  outcome (load_model w s) = inr m ->
  load_model w s = mk_Run (page (load_model w s)) (Some m) (inr m).
Proof.
  destruct s as [m'|].
  - rewrite load_model_cached. cbn. intros [= ->]. reflexivity.
  - destruct (YOLO w "best.pt") as [e|m'] eqn:E.
    + rewrite (load_model_failed w e E). discriminate.
    + rewrite (load_model_fresh w m' E). cbn. intros [= ->]. reflexivity.
Qed.

(** C5.  In a process that starts with an empty cache and whose load
    succeeds, two calls of [load_model] return the same handle and
    [YOLO("best.pt")] runs once; the handle stays in the cache, and every
    later call returns it without loading. *)
Theorem load_model_once (w : World) (m : Model) :
  YOLO w "best.pt" = inr m ->
  let twice := (a ← load_model w ; b ← load_model w ; mret (a, b)) None in
  outcome twice = inr (m, m) /\
  calls (page twice) = [call_YOLO "best.pt"] /\
  store twice = Some m /\
  load_model w (store twice) = mk_Run [] (Some m) (inr m).
Proof.
  intros H twice. subst twice.
  rewrite (run_bind_ok _ _ _ _ _ _ (load_model_fresh w m H)).
  rewrite (run_bind_ok _ _ _ _ _ _ (load_model_cached w m)).
  cbn. repeat split; reflexivity.
Qed.

(** Witness for C5: the stub world. *)
Lemma load_model_once_witness :
  let m := Stub.model_of Stub.three in
  let w := Stub.world_of m in
  let twice := (a ← load_model w ; b ← load_model w ; mret (a, b)) None in
  outcome twice = inr (m, m) /\
  calls (page twice) = [call_YOLO "best.pt"] /\
  store twice = Some m /\
  load_model w (store twice) = mk_Run [] (Some m) (inr m).
Proof.
  exact (load_model_once (Stub.world_of (Stub.model_of Stub.three))
           (Stub.model_of Stub.three) eq_refl).
Defined.

(** ** Reasoning about what a piece of the script emits *)

Lemma flatten_app (a b : list Event) : flatten (a ++ b) = (flatten a ++ flatten b)%list.
Proof. apply flat_map_app. Qed.

Lemma prune_app keep (a b : list Event) :
  prune keep (a ++ b) = (prune keep a ++ prune keep b)%list.
Proof. apply flat_map_app. Qed.

(** Induction on events that reaches inside the blocks. *)
Lemma Event_nested_ind (P : Event -> Prop) :
  (forall e, (forall c body, e <> inside c body) -> P e) ->
  (forall c body, Forall P body -> P (inside c body)) ->
  forall e, P e.
Proof.
  intros Hleaf Hblock.
  fix IH 1. intros e.
  destruct e; try (apply Hleaf; intros; discriminate).
  apply Hblock.
  induction body as [|x body IHbody]; constructor; [apply IH|exact IHbody].
Qed.

(** A page all of whose events pass [keep] is its own pruning. *)
Lemma prune_id keep (evs : list Event) :
  Forall (fun e => keep e = true) (flatten evs) -> prune keep evs = evs.
Proof.
  induction evs as [|e evs IHevs]; [reflexivity|].
  change (flatten (e :: evs)) with (flatten_event e ++ flatten evs)%list.
  intros H. apply Forall_app in H as [He Hevs].
  change (prune keep (e :: evs)) with (prune_event keep e ++ prune keep evs)%list.
  rewrite (IHevs Hevs). clear IHevs Hevs.
  change (e :: evs) with ([e] ++ evs)%list. f_equal.
  revert He. induction e as [e Hleaf|c body IHbody] using Event_nested_ind.
  - intros He. destruct e; cbn in *;
      try (inversion He as [|? ? Hk _]; rewrite Hk; reflexivity).
    exfalso. eapply Hleaf. reflexivity.
  - cbn [flatten_event prune_event]. intros He.
    inversion He as [|? ? _ Hbody]; subst. f_equal. f_equal.
    clear He. induction body as [|x body IH]; [reflexivity|].
    cbn [flat_map] in *. apply Forall_app in Hbody as [Hx Hrest].
    inversion IHbody as [|? ? IHx IHrest]; subst.
    rewrite (IH IHrest Hrest).
    change (x :: body) with ([x] ++ body)%list. f_equal. apply IHx. exact Hx.
Qed.

Section Emits.

Context {P : Event -> Prop}.

#[local] Abbreviation emits := (emits P).

Lemma emits_ret {A} (a : A) : emits (mret a).
Proof. intros s. constructor. Qed.

Lemma emits_raise {A} (e : PyExc) : emits (@raise A e).
Proof. intros s. constructor. Qed.

Lemma emits_emit ev : P ev -> (forall c body, ev <> inside c body) -> emits (emit ev).
Proof.
  intros H Hleaf s. destruct ev; cbn; try (repeat constructor; exact H).
  exfalso. eapply Hleaf. reflexivity.
Qed.

Lemma emits_bind {A B} (m : M A) (k : A -> M B) :
  emits m -> (forall a, emits (k a)) -> emits (m ≫= k).
Proof.
  intros Hm Hk s. unfold mbind, M_bind, bind.
  specialize (Hm s). destruct (outcome (m s)) as [e|a]; cbn [page]; [exact Hm|].
  rewrite flatten_app. apply Forall_app. split; [exact Hm|apply Hk].
Qed.

Lemma emits_with {A} c (body : M A) :
  (forall evs, P (inside c evs)) -> emits body -> emits (with_ c body).
Proof.
  intros Hc Hbody s. unfold with_. cbn [page flatten flat_map flatten_event].
  rewrite app_nil_r. constructor; [apply Hc|apply Hbody].
Qed.

Lemma emits_call {A} c (r : PyExc + A) : P (ext c) -> emits (call c r).
Proof.
  intros H. unfold call. apply emits_bind.
  - apply emits_emit; [exact H|discriminate].
  - intros _. destruct r; [apply emits_raise|apply emits_ret].
Qed.

Lemma emits_cache_resource (f : M Model) : emits f -> emits (cache_resource f).
Proof.
  intros Hf s. unfold cache_resource. destruct s as [m|]; [constructor|].
  specialize (Hf None). destruct (outcome (f None)); exact Hf.
Qed.

End Emits.

Lemma keeps_ret {A} (a : A) : keeps (mret a).
Proof. intros s. reflexivity. Qed.

Lemma keeps_raise {A} (e : PyExc) : keeps (@raise A e).
Proof. intros s. reflexivity. Qed.

Lemma keeps_emit ev : keeps (emit ev).
Proof. intros s. reflexivity. Qed.

Lemma keeps_bind {A B} (m : M A) (k : A -> M B) :
  keeps m -> (forall a, keeps (k a)) -> keeps (m ≫= k).
Proof.
  intros Hm Hk s. unfold mbind, M_bind, bind.
  specialize (Hm s). destruct (outcome (m s)) as [e|a]; cbn [store]; [exact Hm|].
  rewrite Hk. exact Hm.
Qed.

Lemma keeps_with {A} c (body : M A) : keeps body -> keeps (with_ c body).
Proof. intros H s. apply H. Qed.

Lemma keeps_call {A} c (r : PyExc + A) : keeps (call c r).
Proof.
  unfold call. apply keeps_bind; [apply keeps_emit|].
  intros _. destruct r; [apply keeps_raise|apply keeps_ret].
Qed.

Lemma keeps_progress_bar : keeps progress_bar.
Proof. intros s. rewrite progress_bar_run. reflexivity. Qed.

Ltac keeps_step :=
  first
    [ apply keeps_ret | apply keeps_raise | apply keeps_emit | apply keeps_call
    | apply keeps_progress_bar
    | apply keeps_with
    | apply keeps_bind; [|intros ?]
    | match goal with
      | |- keeps (match ?x with _ => _ end) => destruct x
      | |- keeps (if ?x then _ else _) => destruct x
      end ].

Lemma keeps_detection_panel w model idx box : keeps (detection_panel w model idx box).
Proof.
  unfold detection_panel, getitem. destruct (xyxy box) as [[[x1 y1] x2] y2].
  repeat keeps_step.
Qed.

Lemma keeps_detection_panels w model bs : forall idx,
  keeps (detection_panels w model idx bs).
Proof.
  induction bs as [|box rest IH]; intros idx; cbn [detection_panels].
  - apply keeps_ret.
  - apply keeps_bind; [apply keeps_detection_panel|intros _; apply IH].
Qed.

Lemma keeps_analysis w model image : keeps (analysis w model image).
Proof.
  unfold analysis, resize, first, detailed_analysis, summary_metrics.
  repeat first [apply keeps_detection_panels | keeps_step].
Qed.

(** [main] is its header, the cached load, and a rest that does not touch
    the cache. *)
Lemma main_after_load w uploaded_file clicked :
  exists K : Model -> M unit,
    (forall model, keeps (K model)) /\
    main w uploaded_file clicked =
      (emit (st_columns [1; 2; 1]%Z) ;;
       with_ (column 0 1)
         (emit (st_title "🚦 Traffic Sign Detection") ;;
          emit (st_markdown "### Advanced AI-Powered Traffic Sign Recognition" false)) ;;
       with_ (spinner "Loading AI Model...") (load_model w) ≫= K).
Proof.
  eexists. split; [|reflexivity].
  intros model. cbv beta. unfold show_image.
  repeat first [apply keeps_analysis | keeps_step].
Qed.

(** ** Running [main] step by step *)

Lemma run_bind_ok' {A B} (m : M A) (k : A -> M B) s p s' a p' s'' o :
  m s = mk_Run p s' (inr a) ->
  k a s' = mk_Run p' s'' o ->
  (m ≫= k) s = mk_Run (p ++ p') s'' o.
Proof. intros H1 H2. rewrite (run_bind_ok _ _ _ _ _ _ H1), H2. reflexivity. Qed.

Lemma run_with' {A} c (body : M A) s p s' o :
  body s = mk_Run p s' o -> with_ c body s = mk_Run [inside c p] s' o.
Proof. intros H. rewrite run_with, H. reflexivity. Qed.

Lemma run_call_ok {A} c (r : PyExc + A) a s :
  r = inr a -> call c r s = mk_Run [ext c] s (inr a).
Proof. intros ->. reflexivity. Qed.

Lemma run_call_exc {A} c (r : PyExc + A) e s :
  r = inl e -> call c r s = mk_Run [ext c] s (inl e).
Proof. intros ->. reflexivity. Qed.

Lemma run_outcome {A} (r : Run A) o :
  outcome r = o -> r = mk_Run (page r) (store r) o.
Proof. intros <-. symmetry. apply run_eta. Qed.

Ltac run :=
  cbv beta iota;
  lazymatch goal with
  | |- (_ ≫= _) _ = _ =>
      first [ eapply run_bind_ok'; [solve [run] | run]
            | eapply run_bind_exc; solve [run] ]
  | |- with_ _ _ _ = _ => eapply run_with'; run
  | |- emit _ _ = _ => reflexivity
  | |- mret _ _ = _ => reflexivity
  | |- raise _ _ = _ => reflexivity
  | |- call _ _ _ = _ =>
      first [ eapply run_call_ok; solve [eassumption | reflexivity]
            | eapply run_call_exc; solve [eassumption | reflexivity] ]
  | |- progress_bar _ = _ => apply progress_bar_run
  | |- _ => solve [eassumption | eapply run_outcome; eassumption ]
  end.

Lemma main_clicked_run w model bytes img s :
  outcome (load_model w s) = inr model ->
  cv2_imdecode w bytes = inr (Some img) ->
  let a := analysis w model (Some img) (Some model) in
  main w (Some bytes) true s =
  mk_Run
    ([st_columns [1; 2; 1]%Z;
      inside (column 0 1)
        [st_title "🚦 Traffic Sign Detection";
         st_markdown "### Advanced AI-Powered Traffic Sign Recognition" false];
      inside (spinner "Loading AI Model...") (page (load_model w s));
      st_markdown "<div class='upload-box'>" true;
      st_file_uploader "Drop your image here or click to upload"
        ["jpg"; "jpeg"; "png"];
      st_markdown "</div>" true;
      ext (call_imdecode bytes);
      st_columns [1; 1]%Z;
      inside (column 1 0)
        [st_markdown "### Original Image" false; st_image img "BGR"];
      st_button "🔍 Analyze Image";
      inside (spinner "Analyzing image...")
        (st_progress 0 :: progress_events 0 100 ++ page a)] ++
     match outcome a with
     | inl _ => []
     | inr _ =>
         [st_markdown "---" false;
          st_markdown
            ("Made with ❤️ using YOLOv8 and Streamlit | " ++
             "[GitHub](https://github.com) | " ++
             "[Report Issue](https://github.com/issues)") false]
     end)%list
    (Some model) (outcome a).
Proof.
  intros Hload Hdec a.
  pose proof (load_model_ok w s model Hload) as Hl.
  pose proof (keeps_analysis w model (Some img) (Some model)) as Hk. fold a in Hk.
  destruct (outcome a) as [e|[]] eqn:Ha.
  - pose proof (run_outcome a _ Ha) as Hr. rewrite Hk in Hr. subst a.
    etransitivity; [unfold main, show_image; run|]. reflexivity.
  - pose proof (run_outcome a _ Ha) as Hr. rewrite Hk in Hr. subst a.
    etransitivity; [unfold main, show_image; run|]. reflexivity.
Qed.

Lemma detailed_analysis_run w model results s :
  Forall (labelled model) (boxes results) ->
  detailed_analysis w model results s =
  mk_Run
    match boxes results with
    | [] => [st_warning "No traffic signs detected in this image."]
    | bs => panels_from w model 0 bs
    end s (inr tt).
Proof.
  intros Hall. unfold detailed_analysis.
  destruct (boxes results) as [|box rest]; [reflexivity|].
  replace (0 <? length (box :: rest))%nat with true by reflexivity.
  apply detection_panels_run. exact Hall.
Qed.

Lemma summary_metrics_run results s :
  summary_metrics results s =
  mk_Run
    [st_columns [1; 1; 1]%Z;
     inside (column 2 0)
       [st_metric "Total Detections"
          (Py.str_int (Z.of_nat (length (boxes results))))];
     inside (column 2 1)
       [st_metric "Average Confidence"
          (Py.format_pct_number 2 (avg_conf results))];
     inside (column 2 2)
       [st_metric "Unique Sign Types" (Py.str_int (unique_classes results))]]
    s (inr tt).
Proof. reflexivity. Qed.

(** The analysis of a decoded image on which the capability answers. *)
Lemma analysis_run_ok w model img results rest s :
  predict model (cv2_resize w img (640, 640)%Z) 0.25 = inr (results :: rest) ->
  Forall (labelled model) (boxes results) ->
  analysis w model (Some img) s =
  mk_Run
    ([ext (call_resize (640, 640)%Z);
      ext (call_predict (cv2_resize w img (640, 640)%Z) 0.25);
      ext call_plot;
      inside (column 1 1)
        [st_markdown "### Detection Results" false;
         st_image (plot results) "BGR"];
      st_markdown "<div class='detection-box'>" true;
      st_markdown "### 📊 Detailed Analysis" false] ++
     match boxes results with
     | [] => [st_warning "No traffic signs detected in this image."]
     | bs => panels_from w model 0 bs
     end ++
     st_markdown "</div>" true ::
     page (summary_metrics results s))%list
    s (inr tt).
Proof.
  intros Hpred Hall.
  pose proof (detailed_analysis_run w model results s Hall) as Hd.
  pose proof (summary_metrics_run results s) as Hs.
  etransitivity; [unfold analysis, resize, first; run|].
  rewrite Hs. reflexivity.
Qed.

(** The analysis when the capability raises: nothing after the call. *)
Lemma analysis_run_predict_exc w model img e s :
  predict model (cv2_resize w img (640, 640)%Z) 0.25 = inl e ->
  analysis w model (Some img) s =
  mk_Run
    [ext (call_resize (640, 640)%Z);
     ext (call_predict (cv2_resize w img (640, 640)%Z) 0.25)]
    s (inl e).
Proof.
  intros Hpred. etransitivity; [unfold analysis, resize; run|]. reflexivity.
Qed.

(** The analysis of [None]: [cv2.resize] raises. *)
Lemma analysis_run_None w model s :
  analysis w model None s =
  mk_Run [ext (call_resize (640, 640)%Z)] s
    (inl (Exc "cv2.error" "resize: the source image is empty")).
Proof. reflexivity. Qed.

(** ** The end-to-end scenario *)

Lemma load_model_page w s :
  page (load_model w s) = [] \/ page (load_model w s) = [ext (call_YOLO "best.pt")].
Proof.
  destruct s as [m|]; [left; reflexivity|right].
  destruct (YOLO w "best.pt") as [e|m] eqn:E.
  - rewrite (load_model_failed w e E). reflexivity.
  - rewrite (load_model_fresh w m E). reflexivity.
Qed.

(** C6.  Three detections with confidences 0.9, 0.6 and 0.4 whose classes
    take two distinct values: after a click on an upload that decodes,
    [main] shows three panels, numbered 1 to 3 in the order the capability
    returned them, and the metrics Total Detections 3, Average Confidence
    63.33% and Unique Sign Types 2. *)
Theorem three_detections_scenario (w : World) (model : Model)
    (bytes : list Byte.byte) (img plotted : ndarray) (c1 c2 c3 : Q)
    (bb1 bb2 bb3 : Q * Q * Q * Q) (s : option Model) :
  let b1 := mk_Box c1 0.9 bb1 in
  let b2 := mk_Box c2 0.6 bb2 in
  let b3 := mk_Box c3 0.4 bb3 in
  let results := mk_Results [b1; b2; b3] plotted in
  outcome (load_model w s) = inr model ->
  cv2_imdecode w bytes = inr (Some img) ->
  predict model (cv2_resize w img (640, 640)%Z) 0.25 = inr [results] ->
  Forall (labelled model) [b1; b2; b3] ->
  length (Py.set [c1; c2; c3]) = 2%nat ->
  let r := main w (Some bytes) true s in
  outcome r = inr tt /\
  expander_labels (page r) =
    ["Detection 1: " ++ class_name_of model b1;
     "Detection 2: " ++ class_name_of model b2;
     "Detection 3: " ++ class_name_of model b3] /\
  metrics (page r) =
    [("Total Detections", "3"); ("Average Confidence", "63.33%");
     ("Unique Sign Types", "2")].
Proof.
  intros b1 b2 b3 results Hload Hdec Hpred Hall Hset r. subst r.
  rewrite (main_clicked_run w model bytes img s Hload Hdec). cbv zeta.
  rewrite (analysis_run_ok w model img results [] (Some model) Hpred Hall).
  rewrite summary_metrics_run.
  assert (Hu : unique_classes results = 2%Z).
  { unfold unique_classes, results. cbn [boxes length Nat.ltb Nat.leb map cls b1 b2 b3].
    rewrite Hset. reflexivity. }
  rewrite Hu.
  cbn [page outcome boxes results].
  split; [reflexivity|].
  destruct bb1 as [[[? ?] ?] ?], bb2 as [[[? ?] ?] ?], bb3 as [[[? ?] ?] ?].
  destruct (load_model_page w s) as [-> | ->].
  - split.
    + vm_compute. reflexivity.
    + vm_compute. reflexivity.
  - split.
    + vm_compute. reflexivity.
    + vm_compute. reflexivity.
Qed.

(** Witness for C6: the stub world, classes stop, yield, stop. *)
Lemma three_detections_scenario_witness :
  let w := Stub.world_of (Stub.model_of Stub.three) in
  let r := main w (Some Stub.upload) true None in
  outcome r = inr tt /\
  expander_labels (page r) =
    ["Detection 1: stop"; "Detection 2: yield"; "Detection 3: stop"] /\
  metrics (page r) =
    [("Total Detections", "3"); ("Average Confidence", "63.33%");
     ("Unique Sign Types", "2")].
Proof.
  apply (three_detections_scenario
           (Stub.world_of (Stub.model_of Stub.three))
           (Stub.model_of Stub.three) Stub.upload Stub.decoded Stub.plotted
           0 1 0 (10, 20, 110, 120)%Q (200, 50, 260.5, 110.25)%Q
           (300, 300, 400, 400)%Q None).
  - reflexivity.
  - reflexivity.
  - reflexivity.
  - repeat constructor; vm_compute; eauto.
  - reflexivity.
Defined.

(** ** Exceptions (no handler in [main]) *)

Lemma main_decode_exc w model bytes clicked s e :
  outcome (load_model w s) = inr model ->
  cv2_imdecode w bytes = inl e ->
  outcome (main w (Some bytes) clicked s) = inl e.
Proof.
  intros Hload Hdec.
  pose proof (load_model_ok w s model Hload) as Hl.
  assert (H : exists p st, main w (Some bytes) clicked s = mk_Run p st (inl e)).
  { do 2 eexists. unfold main. run. }
  destruct H as (p & st & ->). reflexivity.
Qed.

Lemma main_decode_None w model bytes s :
  outcome (load_model w s) = inr model ->
  cv2_imdecode w bytes = inr None ->
  exists e, outcome (main w (Some bytes) true s) = inl e.
Proof.
  intros Hload Hdec.
  pose proof (load_model_ok w s model Hload) as Hl.
  pose proof (analysis_run_None w model (Some model)) as Ha.
  destruct (st_image_None w) as [e|] eqn:Hshow.
  - exists e.
    assert (H : exists p st, main w (Some bytes) true s = mk_Run p st (inl e)).
    { do 2 eexists. unfold main, show_image. rewrite Hshow. run. }
    destruct H as (p & st & ->). reflexivity.
  - exists (Exc "cv2.error" "resize: the source image is empty").
    assert (H : exists p st, main w (Some bytes) true s =
                mk_Run p st (inl (Exc "cv2.error" "resize: the source image is empty"))).
    { do 2 eexists. unfold main, show_image. rewrite Hshow. run. }
    destruct H as (p & st & ->). reflexivity.
Qed.

(** C4, as the code has it.  [main] has no handler.  Once the model is
    loaded, an exception raised by [cv2.imdecode] or by the detection
    capability is the outcome of [main], and bytes that do not decode
    ([cv2.imdecode] returns [None], no exception) make a clicked run end in
    an exception too, at [st.image] or at [cv2.resize].  When the capability
    raises, the run shows no panel, no metric and no notice. *)
Theorem errors_leave_main (w : World) (model : Model) (bytes : list Byte.byte)
    (s : option Model) :
  outcome (load_model w s) = inr model ->
  (forall e clicked,
     cv2_imdecode w bytes = inl e ->
     outcome (main w (Some bytes) clicked s) = inl e) /\
  (cv2_imdecode w bytes = inr None ->
   exists e, outcome (main w (Some bytes) true s) = inl e) /\
  (forall img e,
     cv2_imdecode w bytes = inr (Some img) ->
     predict model (cv2_resize w img (640, 640)%Z) 0.25 = inl e ->
     let r := main w (Some bytes) true s in
     outcome r = inl e /\
     expander_labels (page r) = [] /\
     metrics (page r) = [] /\
     warnings (page r) = []).
Proof.
  intros Hload. split; [|split].
  - intros e clicked Hdec. exact (main_decode_exc w model bytes clicked s e Hload Hdec).
  - intros Hdec. exact (main_decode_None w model bytes s Hload Hdec).
  - intros img e Hdec Hpred r. subst r.
    rewrite (main_clicked_run w model bytes img s Hload Hdec). cbv zeta.
    rewrite (analysis_run_predict_exc w model img e (Some model) Hpred).
    cbn [page outcome]. split; [reflexivity|].
    destruct (load_model_page w s) as [-> | ->]; repeat split; vm_compute; reflexivity.
Qed.

(** Witness for C4: the stub whose capability raises. *)
Lemma errors_leave_main_witness :
  let w := Stub.world_of Stub.failing_model in
  let r := main w (Some Stub.upload) true None in
  outcome r = inl (Exc "RuntimeError" "inference failed") /\
  expander_labels (page r) = [] /\
  metrics (page r) = [] /\
  warnings (page r) = [].
Proof.
  exact (proj2 (proj2
           (errors_leave_main (Stub.world_of Stub.failing_model)
              Stub.failing_model Stub.upload None eq_refl))
           Stub.decoded (Exc "RuntimeError" "inference failed")
           eq_refl eq_refl).
Defined.

(** C4, as the specification has it, fails: when the detection capability
    raises, the exception is the outcome of [main]; the run does not return
    and shows no message. *)
Lemma inference_error_not_caught :
  let w := Stub.world_of Stub.failing_model in
  let r := main w (Some Stub.upload) true None in
  outcome r <> inr tt /\
  outcome r = inl (Exc "RuntimeError" "inference failed") /\
  warnings (page r) = [].
Proof. split; [vm_compute; discriminate|split; reflexivity]. Qed.

(** Bytes that do not decode: [cv2.imdecode] returns [None] and the run
    ends in the exception of [st.image]. *)
Example truncated_upload_run :
  outcome (main (Stub.world_of (Stub.model_of Stub.three))
             (Some Stub.truncated) false None) =
  inl (Exc "AttributeError" "'NoneType' object has no attribute 'shape'").
Proof. reflexivity. Qed.

(** ** Detections are presented as returned *)












(** ** What [main] emits *)

Ltac emits_side := cbn; first [exact I | reflexivity | discriminate | tauto].

Lemma emits_progress_loop (P : Event -> Prop) n :
  P (ext (call_sleep 0.01)) -> (forall v, P (progress_update v)) ->
  forall i, emits P (progress_loop i n).
Proof.
  intros Hs Hu. induction n as [|n IH]; intros i; cbn [progress_loop].
  - apply emits_ret.
  - apply emits_bind; [apply emits_call; exact Hs|intros _].
    apply emits_bind; [apply emits_emit; [apply Hu|discriminate]|intros _].
    apply IH.
Qed.

Ltac emits_step :=
  lazymatch goal with
  | |- emits _ (mret _) => apply emits_ret
  | |- emits _ (raise _) => apply emits_raise
  | |- emits _ (emit _) => apply emits_emit; [emits_side|discriminate]
  | |- emits _ (call _ _) => apply emits_call; emits_side
  | |- emits _ (with_ _ _) => apply emits_with; [intros ?; emits_side|]
  | |- emits _ (cache_resource _) => apply emits_cache_resource
  | |- emits _ (progress_loop _ _) =>
      apply emits_progress_loop; [emits_side|intros ?; emits_side]
  | |- emits _ (_ ≫= _) => apply emits_bind; [|intros ?]
  | |- emits _ (match ?x with _ => _ end) => destruct x
  end.

Section EmitsPanels.

Context (P : Event -> Prop) (w : World) (model : Model).
Hypothesis P_markdown : forall b u, P (st_markdown b u).
Hypothesis P_code : forall b, P (st_code b).
Hypothesis P_expander : forall l evs, P (inside (expander l) evs).

Lemma emits_detection_panels bs : forall idx,
  emits P (detection_panels w model idx bs).
Proof.
  induction bs as [|box rest IH]; intros idx; cbn [detection_panels].
  - apply emits_ret.
  - apply emits_bind; [|intros _; apply IH].
    unfold detection_panel, getitem. destruct (xyxy box) as [[[x1 y1] x2] y2].
    apply emits_bind;
      [destruct (names model !! Py.int (cls box));
       [apply emits_ret|apply emits_raise]|].
    intros name. apply emits_with; [apply P_expander|].
    repeat (apply emits_bind; [|intros _]);
      apply emits_emit; solve [apply P_markdown | apply P_code | discriminate].
Qed.

End EmitsPanels.

Ltac emits_main :=
  unfold main, main_without_progress, load_model, show_image, analysis,
    resize, first, progress_bar, detailed_analysis, summary_metrics;
  repeat
    lazymatch goal with
    | |- emits _ (detection_panels _ _ _ _) =>
        apply emits_detection_panels; intros; emits_side
    | |- _ => emits_step
    end.

(** ** Reproducible inference (lines 98-99) *)

Lemma main_fixed_constants w uploaded_file clicked :
  emits fixed_constants (main w uploaded_file clicked).
Proof. emits_main. Qed.

Lemma load_model_exc (w : World) (s : option Model) (e : PyExc) :
  outcome (load_model w s) = inl e ->
  s = None /\ load_model w s = mk_Run [ext (call_YOLO "best.pt")] None (inl e).
Proof.
  destruct s as [m|]; [rewrite load_model_cached; discriminate|].
  destruct (YOLO w "best.pt") as [e'|m] eqn:E.
  - rewrite (load_model_failed w e' E). cbn. intros [= ->]. split; reflexivity.
  - rewrite (load_model_fresh w m E). discriminate.
Qed.

(** A run of [main] is its header, the load, and a rest that depends on the
    loaded model only. *)
Lemma main_runs w uploaded_file clicked :
  exists rest : Model -> Run unit,
    forall s,
      match outcome (load_model w s) with
      | inr m =>
          main w uploaded_file clicked s =
          mk_Run
            (st_columns [1; 2; 1]%Z
             :: inside (column 0 1)
                  [st_title "🚦 Traffic Sign Detection";
                   st_markdown
                     "### Advanced AI-Powered Traffic Sign Recognition" false]
             :: inside (spinner "Loading AI Model...") (page (load_model w s))
             :: page (rest m))
            (Some m) (outcome (rest m))
      | inl e =>
          main w uploaded_file clicked s =
          mk_Run
            [st_columns [1; 2; 1]%Z;
             inside (column 0 1)
               [st_title "🚦 Traffic Sign Detection";
                st_markdown
                  "### Advanced AI-Powered Traffic Sign Recognition" false];
             inside (spinner "Loading AI Model...") (page (load_model w s))]
            None (inl e)
      end.
Proof.
  destruct (main_after_load w uploaded_file clicked) as (K & HK & ->).
  exists (fun m => K m (Some m)). intros s.
  destruct (outcome (load_model w s)) as [e|m] eqn:Hload.
  - destruct (load_model_exc w s e Hload) as [-> Hl].
    etransitivity; [run|]. rewrite Hl. reflexivity.
  - pose proof (load_model_ok w s m Hload) as Hl.
    pose proof (run_outcome (K m (Some m)) _ eq_refl) as Hk.
    rewrite (HK m (Some m)) in Hk.
    etransitivity; [run|]. reflexivity.
Qed.

(** C7.  Every resize of a run asks for 640 by 640 and every call of the
    capability passes the confidence threshold 0.25; the analysis of a
    decoded image first resizes it and then calls the capability on the
    resized image; and a second run on the same upload, with the model the
    first run left in the cache, shows the same page and ends the same
    way. *)
Theorem inference_is_reproducible (w : World)
    (uploaded_file : option (list Byte.byte)) (clicked : bool)
    (s : option Model) :
  let r1 := main w uploaded_file clicked s in
  let r2 := main w uploaded_file clicked (store r1) in
  screen (page r1) = screen (page r2) /\
  outcome r1 = outcome r2 /\
  Forall fixed_constants (flatten (page r1)) /\
  forall model img s',
    exists rest,
      calls (page (analysis w model (Some img) s')) =
      call_resize (640, 640)%Z
        :: call_predict (cv2_resize w img (640, 640)%Z) 0.25 :: rest.
Proof.
  cbv zeta.
  assert (Hrun : screen (page (main w uploaded_file clicked s)) =
                 screen (page (main w uploaded_file clicked
                                 (store (main w uploaded_file clicked s)))) /\
                 outcome (main w uploaded_file clicked s) =
                 outcome (main w uploaded_file clicked
                            (store (main w uploaded_file clicked s)))).
  { destruct (main_runs w uploaded_file clicked) as (rest & Hrest).
    pose proof (Hrest s) as H1.
    destruct (outcome (load_model w s)) as [e|m] eqn:Hload.
    - destruct (load_model_exc w s e Hload) as [-> _].
      rewrite H1. cbn [store]. rewrite H1. split; reflexivity.
    - rewrite H1. cbn [store page outcome].
      pose proof (Hrest (Some m)) as H2. rewrite load_model_cached in H2.
      cbn [outcome page] in H2. rewrite H2. cbn [page outcome].
      split; [|reflexivity].
      destruct (load_model_page w s) as [-> | ->]; reflexivity. }
  destruct Hrun as [Hscreen Hout].
  split; [exact Hscreen|split; [exact Hout|split]].
  - apply main_fixed_constants.
  - intros model img s'.
    destruct (predict model (cv2_resize w img (640, 640)%Z) 0.25)
      as [e|batch] eqn:Hpred.
    + rewrite (analysis_run_predict_exc w model img e s' Hpred).
      eexists. reflexivity.
    + unfold analysis.
      erewrite run_bind_ok by (unfold resize; apply run_call_ok; reflexivity).
      erewrite run_bind_ok by (apply run_call_ok; exact Hpred).
      cbn [page app]. unfold calls, flatten.
      cbn [flat_map flatten_event app]. eexists. reflexivity.
Qed.

(** ** The progress bar (lines 92-95) *)

Lemma sbp_clean {A} (m : M A) :
  emits (fun e => negb (is_progress e) = true) m -> same_but_progress m m.
Proof.
  intros H s. split; [|split; reflexivity].
  apply prune_id. apply H.
Qed.

Lemma sbp_bind {A B} (m1 m2 : M A) (k1 k2 : A -> M B) :
  same_but_progress m1 m2 ->
  (forall a, same_but_progress (k1 a) (k2 a)) ->
  same_but_progress (m1 ≫= k1) (m2 ≫= k2).
Proof.
  intros Hm Hk s. unfold mbind, M_bind, bind.
  destruct (Hm s) as (Hp & Hs & Ho). rewrite <- Ho, <- Hs, <- Hp.
  destruct (outcome (m1 s)) as [e|a]; cbn [page store outcome].
  - repeat split.
  - destruct (Hk a (store (m1 s))) as (Hp' & Hs' & Ho').
    rewrite <- Ho', <- Hs', <- Hp'. unfold without_progress.
    rewrite prune_app. repeat split.
Qed.

Lemma sbp_with {A} c (b1 b2 : M A) :
  same_but_progress b1 b2 -> same_but_progress (with_ c b1) (with_ c b2).
Proof.
  intros H s. destruct (H s) as (Hp & Hs & Ho). unfold with_.
  cbn [page store outcome]. rewrite <- Hp, Hs, Ho.
  unfold without_progress, prune. cbn [flat_map prune_event app].
  repeat split.
Qed.

Lemma without_progress_events n : forall i,
  without_progress (progress_events i n) = [].
Proof. induction n as [|n IH]; intros i; [reflexivity|]. apply (IH (S i)). Qed.

Lemma sbp_progress_bar {A} (k1 : unit -> M A) (k2 : M A) :
  (forall a, same_but_progress (k1 a) k2) ->
  same_but_progress (progress_bar ≫= k1) k2.
Proof.
  intros Hk s.
  rewrite (run_bind_ok _ _ _ _ _ _ (progress_bar_run s)).
  destruct (Hk tt s) as (Hp & Hs & Ho). cbn [page store outcome].
  rewrite <- Hp, Hs, Ho. unfold without_progress at 1.
  change (st_progress 0 :: ?l) with ([st_progress 0] ++ l)%list.
  rewrite <- app_assoc, !prune_app.
  fold (without_progress (progress_events 0 100)).
  rewrite without_progress_events. repeat split.
Qed.

Ltac clean_tac :=
  unfold load_model, show_image, analysis, resize, first, detailed_analysis,
    summary_metrics;
  repeat
    lazymatch goal with
    | |- emits _ (detection_panels _ _ _ _) =>
        apply emits_detection_panels; intros; emits_side
    | |- _ => emits_step
    end.

Ltac sbp_step :=
  lazymatch goal with
  | |- same_but_progress (progress_bar ≫= _) _ =>
      apply sbp_progress_bar; intros ?
  | |- same_but_progress (with_ _ _) (with_ _ _) => apply sbp_with
  | |- same_but_progress (match ?x with _ => _ end) _ => destruct x
  | |- same_but_progress (_ ≫= _) (_ ≫= _) => apply sbp_bind; [|intros ?]
  | |- same_but_progress _ _ => apply sbp_clean; clean_tac
  end.

(** C9.  Taking lines 92-95 out of [main] changes nothing but the progress
    bar: for every upload, click and cache, the page of [main] without its
    progress-bar events is the page of the script without those lines, and
    the two leave the same cache and end the same way. *)
Theorem progress_bar_is_cosmetic (w : World)
    (uploaded_file : option (list Byte.byte)) (clicked : bool)
    (s : option Model) :
  let r := main w uploaded_file clicked s in
  let r' := main_without_progress w uploaded_file clicked s in
  without_progress (page r) = page r' /\
  store r = store r' /\
  outcome r = outcome r'.
Proof.
  cbv zeta. revert s.
  change (same_but_progress (main w uploaded_file clicked)
            (main_without_progress w uploaded_file clicked)).
  unfold main, main_without_progress.
  repeat sbp_step.
Qed.

(** ** Inference needs an upload and a click (lines 76-99) *)

Lemma calls_In c evs : In c (calls evs) -> In (ext c) (flatten evs).
Proof.
  unfold calls. rewrite in_flat_map. intros (x & Hx & Hc).
  destruct x; try contradiction. destruct Hc as [<- | []]. exact Hx.
Qed.

Lemma main_no_upload w clicked :
  emits no_analysis (main w None clicked).
Proof. unfold main. clean_tac. Qed.

Lemma main_no_click w uploaded_file :
  emits no_analysis (main w uploaded_file false).
Proof. unfold main. clean_tac. Qed.

Lemma main_unclicked_run w model bytes img s :
  outcome (load_model w s) = inr model ->
  cv2_imdecode w bytes = inr (Some img) ->
  main w (Some bytes) false s =
  mk_Run
    [st_columns [1; 2; 1]%Z;
     inside (column 0 1)
       [st_title "🚦 Traffic Sign Detection";
        st_markdown "### Advanced AI-Powered Traffic Sign Recognition" false];
     inside (spinner "Loading AI Model...") (page (load_model w s));
     st_markdown "<div class='upload-box'>" true;
     st_file_uploader "Drop your image here or click to upload"
       ["jpg"; "jpeg"; "png"];
     st_markdown "</div>" true;
     ext (call_imdecode bytes);
     st_columns [1; 1]%Z;
     inside (column 1 0)
       [st_markdown "### Original Image" false; st_image img "BGR"];
     st_button "🔍 Analyze Image";
     st_markdown "---" false;
     st_markdown
       ("Made with ❤️ using YOLOv8 and Streamlit | " ++
        "[GitHub](https://github.com) | " ++
        "[Report Issue](https://github.com/issues)") false]
    (Some model) (inr tt).
Proof.
  intros Hload Hdec.
  pose proof (load_model_ok w s model Hload) as Hl.
  etransitivity; [unfold main, show_image; run|]. reflexivity.
Qed.

(** C10.  The capability is called only in a run that has an upload and a
    click.  A run without a click, or without an upload, does not resize,
    infer, plot or wait, and shows no progress bar, results column, panel,
    notice or metric; with a loaded model and an upload that decodes, a run
    without a click shows one image, the decoded upload. *)
Theorem inference_needs_upload_and_click (w : World)
    (uploaded_file : option (list Byte.byte)) (clicked : bool)
    (s : option Model) :
  (forall source conf,
     In (call_predict source conf)
        (calls (page (main w uploaded_file clicked s))) ->
     is_Some uploaded_file /\ clicked = true) /\
  Forall no_analysis (flatten (page (main w uploaded_file false s))) /\
  Forall no_analysis (flatten (page (main w None clicked s))) /\
  (forall model bytes img,
     outcome (load_model w s) = inr model ->
     cv2_imdecode w bytes = inr (Some img) ->
     images (page (main w (Some bytes) false s)) = [img]).
Proof.
  split; [|split; [|split]].
  - intros source conf Hin. apply calls_In in Hin.
    destruct uploaded_file as [bytes|], clicked; [split; eauto| | |].
    + pose proof (main_no_click w (Some bytes) s) as H.
      rewrite Forall_forall in H. apply list_elem_of_In, H in Hin. contradiction.
    + pose proof (main_no_upload w true s) as H.
      rewrite Forall_forall in H. apply list_elem_of_In, H in Hin. contradiction.
    + pose proof (main_no_upload w false s) as H.
      rewrite Forall_forall in H. apply list_elem_of_In, H in Hin. contradiction.
  - apply main_no_click.
  - apply main_no_upload.
  - intros model bytes img Hload Hdec.
    rewrite (main_unclicked_run w model bytes img s Hload Hdec). cbn [page].
    destruct (load_model_page w s) as [-> | ->]; reflexivity.
Qed.

(** An upload alone, on the stub: the page holds the decoded upload and
    nothing of an analysis. *)
Example upload_alone_run :
  let w := Stub.world_of (Stub.model_of Stub.three) in
  let r := main w (Some Stub.upload) false None in
  outcome r = inr tt /\
  images (page r) = [Stub.decoded] /\
  calls (page r) = [call_YOLO "best.pt"; call_imdecode Stub.upload] /\
  expander_labels (page r) = [] /\
  metrics (page r) = [].
Proof. vm_compute. repeat split. Qed.

(** * Further properties of app.py *)

(** ** The colour of the bar *)

(** X1.  The colour of the confidence bar is red, orange or green, and it
    never goes down when the confidence goes up. *)
Theorem confidence_color_monotone (c1 c2 : Q) :
  (c1 <= c2)%Q ->
  exists r1 r2 : nat,
    color_rank (confidence_color c1) = Some r1 /\
    color_rank (confidence_color c2) = Some r2 /\
    (r1 <= r2)%nat.
Proof.
  intros Hle.
  destruct (confidence_color_cases c1) as [[H1 E1]|[(H1 & H1' & E1)|[H1 E1]]];
    destruct (confidence_color_cases c2) as [[H2 E2]|[(H2 & H2' & E2)|[H2 E2]]];
    rewrite E1, E2; cbn;
    try (do 2 eexists; repeat split; [reflexivity..|lia]).
  - exfalso. apply (Qlt_not_le _ _ H1). apply Qle_trans with c2; assumption.
  - exfalso. apply (Qlt_not_le _ _ H1).
    apply Qle_trans with c2; [assumption|].
    apply Qle_trans with (5 # 10)%Q; [assumption|discriminate].
  - exfalso. apply (Qlt_not_le _ _ H1). apply Qle_trans with c2; assumption.
Qed.

(** Witness for X1. *)
Lemma confidence_color_monotone_witness :
  exists r1 r2 : nat,
    color_rank (confidence_color 0.3) = Some r1 /\
    color_rank (confidence_color 0.85) = Some r2 /\
    (r1 <= r2)%nat.
Proof. apply (confidence_color_monotone 0.3 0.85). discriminate. Defined.

(** ** The aggregates (lines 133-139) *)

Lemma set_length_le (xs : list Q) : (length (Py.set xs) <= length xs)%nat.
Proof.
  induction xs as [|x r IH]; [reflexivity|]. cbn [Py.set].
  destruct (existsb (Qeq_bool x) r); cbn [length]; lia.
Qed.

Lemma set_nonempty (xs : list Q) : xs <> [] -> (1 <= length (Py.set xs))%nat.
Proof.
  induction xs as [|x r IH]; [congruence|]. intros _. cbn [Py.set].
  destruct (existsb (Qeq_bool x) r) eqn:E; [|cbn [length]; lia].
  apply IH. destruct r; [discriminate|discriminate].
Qed.

(** X4.  The number of unique sign types is never negative and never more
    than the number of detections, and it is at least 1 as soon as there
    is a detection. *)
Theorem unique_classes_bounds (results : Results) :
  (0 <= unique_classes results <= Z.of_nat (length (boxes results)))%Z /\
  (boxes results <> [] -> (1 <= unique_classes results)%Z).
Proof.
  unfold unique_classes. destruct (boxes results) as [|b bs] eqn:E.
  - cbn. split; [lia|congruence].
  - replace (0 <? length (b :: bs))%nat with true by reflexivity.
    pose proof (set_length_le (map cls (b :: bs))) as Hle.
    rewrite length_map in Hle.
    pose proof (set_nonempty (map cls (b :: bs))) as Hne.
    split; [lia|]. intros _. cbn [map] in Hne. specialize (Hne ltac:(discriminate)).
    cbn [map]. lia.
Qed.

(** Witness for X4: the three detections of the stub. *)
Lemma unique_classes_bounds_witness :
  (0 <= unique_classes Stub.three <= 3)%Z /\
  (1 <= unique_classes Stub.three)%Z.
Proof.
  destruct (unique_classes_bounds Stub.three) as [Hrange Hpos].
  split; [exact Hrange|apply Hpos; discriminate].
Defined.

Lemma sum_bounds (lo hi : Q) (xs : list Q) :
  Forall (fun x => (lo <= x)%Q /\ (x <= hi)%Q) xs ->
  (inject_Z (Z.of_nat (length xs)) * lo <= fold_right Qplus 0 xs)%Q /\
  (fold_right Qplus 0 xs <= inject_Z (Z.of_nat (length xs)) * hi)%Q.
Proof.
  induction 1 as [|x xs [Hlo Hhi] _ [IHlo IHhi]].
  - cbn. split; rewrite Qmult_0_l; apply Qle_refl.
  - cbn [length fold_right]. rewrite Nat2Z.inj_succ, <- Z.add_1_r, inject_Z_plus.
    split.
    + rewrite Qmult_plus_distr_l, Qmult_1_l, Qplus_comm.
      apply Qplus_le_compat; assumption.
    + rewrite Qmult_plus_distr_l, Qmult_1_l, Qplus_comm.
      apply Qplus_le_compat; assumption.
Qed.

Lemma avg_conf_between (results : Results) (lo hi : Q) :
  boxes results <> [] ->
  Forall (fun b => (lo <= conf b)%Q /\ (conf b <= hi)%Q) (boxes results) ->
  exists q, avg_conf results = Py.Num q /\ (lo <= q)%Q /\ (q <= hi)%Q.
Proof.
  intros Hne Hall. unfold avg_conf.
  destruct (boxes results) as [|b bs] eqn:E; [congruence|].
  replace (0 <? length (b :: bs))%nat with true by reflexivity.
  unfold Py.mean. cbn [map]. eexists. split; [reflexivity|].
  assert (Hxs : Forall (fun x => (lo <= x)%Q /\ (x <= hi)%Q) (map conf (b :: bs))).
  { apply Forall_map. exact Hall. }
  apply sum_bounds in Hxs. destruct Hxs as [Hlo Hhi]. cbn [map] in Hlo, Hhi.
  set (xs := conf b :: map conf bs) in *.
  assert (Hn : (0 < inject_Z (Z.of_nat (length xs)))%Q).
  { unfold xs. cbn [length]. rewrite <- (Zlt_Qlt 0). lia. }
  rewrite Qred_correct. split.
  - apply Qle_shift_div_l; [exact Hn|]. rewrite Qmult_comm. exact Hlo.
  - apply Qle_shift_div_r; [exact Hn|]. rewrite Qmult_comm. exact Hhi.
Qed.

(** X5.  When every confidence lies in [0,1], the average confidence that
    line 135 computes is a number, never NaN, and lies in [0,1] as well,
    with or without detections. *)
Theorem avg_conf_within_bounds (results : Results) :
  Forall (fun b => (0 <= conf b)%Q /\ (conf b <= 1)%Q) (boxes results) ->
  exists q, avg_conf results = Py.Num q /\ (0 <= q)%Q /\ (q <= 1)%Q.
Proof.
  intros Hall. destruct (boxes results) as [|b bs] eqn:E.
  - exists 0%Q. unfold avg_conf. rewrite E.
    split; [reflexivity|split; discriminate].
  - apply avg_conf_between; [rewrite E; discriminate|rewrite E; exact Hall].
Qed.

(** Witness for X5: the three detections of the stub. *)
Lemma avg_conf_within_bounds_witness :
  exists q, avg_conf Stub.three = Py.Num q /\ (0 <= q)%Q /\ (q <= 1)%Q.
Proof.
  apply (avg_conf_within_bounds Stub.three).
  repeat constructor; discriminate.
Defined.

Lemma seen_Permutation (x : Q) (xs ys : list Q) :
  Permutation xs ys -> existsb (Qeq_bool x) xs = existsb (Qeq_bool x) ys.
Proof.
  induction 1 as [|y l l' _ IH|y z l|l l' l'' _ IH1 _ IH2]; cbn [existsb].
  - reflexivity.
  - rewrite IH. reflexivity.
  - rewrite !orb_assoc, (orb_comm (Qeq_bool x z)). reflexivity.
  - congruence.
Qed.

Lemma seen_Qeq (x y : Q) (xs : list Q) :
  Qeq_bool x y = true -> existsb (Qeq_bool x) xs = existsb (Qeq_bool y) xs.
Proof.
  intros Hxy. apply Qeq_bool_iff in Hxy.
  induction xs as [|z r IH]; [reflexivity|]. cbn [existsb]. rewrite IH. f_equal.
  destruct (Qeq_bool x z) eqn:E1, (Qeq_bool y z) eqn:E2; try reflexivity.
  - apply Qeq_bool_iff in E1. assert (H : (y == z)%Q) by (rewrite <- Hxy; exact E1).
    apply Qeq_bool_iff in H. congruence.
  - apply Qeq_bool_iff in E2. assert (H : (x == z)%Q) by (rewrite Hxy; exact E2).
    apply Qeq_bool_iff in H. congruence.
Qed.

Lemma Qeq_bool_sym (x y : Q) : Qeq_bool x y = Qeq_bool y x.
Proof.
  destruct (Qeq_bool x y) eqn:E1, (Qeq_bool y x) eqn:E2; try reflexivity.
  - apply Qeq_bool_iff in E1. symmetry in E1. apply Qeq_bool_iff in E1. congruence.
  - apply Qeq_bool_iff in E2. symmetry in E2. apply Qeq_bool_iff in E2. congruence.
Qed.

Lemma set_length_Permutation (xs ys : list Q) :
  Permutation xs ys -> length (Py.set xs) = length (Py.set ys).
Proof.
  induction 1 as [|x l l' Hp IH|x y l|l l' l'' _ IH1 _ IH2].
  - reflexivity.
  - cbn [Py.set]. rewrite (seen_Permutation x l l' Hp).
    destruct (existsb (Qeq_bool x) l'); cbn [length]; congruence.
  - cbn [Py.set existsb]. rewrite (Qeq_bool_sym x y).
    destruct (Qeq_bool y x) eqn:Exy; cbn [orb].
    + rewrite (seen_Qeq y x l Exy).
      destruct (existsb (Qeq_bool x) l); reflexivity.
    + destruct (existsb (Qeq_bool x) l), (existsb (Qeq_bool y) l); reflexivity.
  - congruence.
Qed.

(** X11.  The number of unique sign types does not depend on the order of
    the detections: two results with the same boxes in a different order
    show the same number. *)
Theorem unique_classes_ignores_order (r1 r2 : Results) :
  Permutation (boxes r1) (boxes r2) ->
  unique_classes r1 = unique_classes r2.
Proof.
  intros Hp. pose proof (Permutation_length Hp) as Hlen.
  unfold unique_classes. rewrite <- Hlen.
  destruct (0 <? length (boxes r1))%nat; [|reflexivity].
  f_equal. apply set_length_Permutation. apply Permutation_map. exact Hp.
Qed.

(** Witness for X11: the three detections of the stub, reversed. *)
Lemma unique_classes_ignores_order_witness :
  let reversed := mk_Results [Stub.box3; Stub.box2; Stub.box1] Stub.plotted in
  unique_classes Stub.three = unique_classes reversed.
Proof.
  apply (unique_classes_ignores_order Stub.three
           (mk_Results [Stub.box3; Stub.box2; Stub.box1] Stub.plotted)).
  cbn [boxes Stub.three].
  apply (Permutation_rev [Stub.box1; Stub.box2; Stub.box3]).
Defined.

(** ** Reading a page piece by piece *)

Section Observe.

Context {B : Type} (f : Event -> list B).

Lemma obs_app (a b : list Event) :
  flat_map f (flatten (a ++ b)) =
  (flat_map f (flatten a) ++ flat_map f (flatten b))%list.
Proof. rewrite flatten_app. apply flat_map_app. Qed.

Lemma obs_cons_inside c body l :
  flat_map f (flatten (inside c body :: l)) =
  (f (inside c body) ++ flat_map f (flatten body) ++ flat_map f (flatten l))%list.
Proof.
  change (flatten (inside c body :: l))
    with (inside c body :: flatten body ++ flatten l)%list.
  cbn [flat_map]. rewrite flat_map_app. reflexivity.
Qed.

Lemma obs_cons_leaf e l :
  (forall c body, e <> inside c body) ->
  flat_map f (flatten (e :: l)) = (f e ++ flat_map f (flatten l))%list.
Proof.
  intros H. destruct e; try reflexivity. exfalso. eapply H. reflexivity.
Qed.

Lemma obs_progress_events n :
  f (ext (call_sleep 0.01)) = [] -> (forall v, f (progress_update v) = []) ->
  forall i, flat_map f (flatten (progress_events i n)) = [].
Proof.
  intros Hs Hu. induction n as [|n IH]; intros i; [reflexivity|].
  cbn [progress_events].
  rewrite !obs_cons_leaf by discriminate. rewrite Hs, Hu, IH. reflexivity.
Qed.

Lemma obs_panels w model bs :
  (forall b u, f (st_markdown b u) = []) -> (forall b, f (st_code b) = []) ->
  (forall l evs, f (inside (expander l) evs) = []) ->
  forall idx, flat_map f (flatten (panels_from w model idx bs)) = [].
Proof.
  intros Hm Hc He. induction bs as [|b bs IH]; intros idx; [reflexivity|].
  unfold panels_from. cbn [imap].
  replace (imap ((fun i b => panel w model (idx + i) b) ∘ S) bs)
    with (panels_from w model (S idx) bs)
    by (apply imap_ext; intros i x _; cbn; f_equal; lia).
  unfold panel at 1. destruct (xyxy b) as [[[x1 y1] x2] y2].
  rewrite obs_cons_inside, He, IH.
  rewrite !obs_cons_leaf by discriminate. rewrite !Hm, Hc. reflexivity.
Qed.

End Observe.

Ltac obs_simpl :=
  repeat first
    [ rewrite obs_cons_inside
    | rewrite obs_app
    | rewrite obs_cons_leaf by discriminate
    | rewrite obs_progress_events by (intros; reflexivity)
    | rewrite obs_panels by (intros; reflexivity) ];
  cbv beta iota; cbn [app flat_map flatten].

(** ** Failures inside the analysis *)





(** X3.  When the capability answers with an empty batch, indexing it
    (line 99) raises IndexError: a clicked run on an upload that decodes
    ends in that exception right after the call, with the original image as
    its only image and no panel, notice or metric. *)
Theorem empty_batch_raises (w : World) (model : Model)
    (bytes : list Byte.byte) (img : ndarray) (s : option Model) :
  outcome (load_model w s) = inr model ->
  cv2_imdecode w bytes = inr (Some img) ->
  predict model (cv2_resize w img (640, 640)%Z) 0.25 = inr [] ->
  let r := main w (Some bytes) true s in
  outcome r = inl (Exc "IndexError" "list index out of range") /\
  images (page r) = [img] /\
  expanders (page r) = [] /\
  warnings (page r) = [] /\
  metrics (page r) = [].
Proof.
  intros Hload Hdec Hpred r. subst r.
  assert (Ha : analysis w model (Some img) (Some model) =
               mk_Run
                 [ext (call_resize (640, 640)%Z);
                  ext (call_predict (cv2_resize w img (640, 640)%Z) 0.25)]
                 (Some model)
                 (inl (Exc "IndexError" "list index out of range"))).
  { etransitivity; [unfold analysis, resize, first; run|]. reflexivity. }
  rewrite (main_clicked_run w model bytes img s Hload Hdec). cbv zeta.
  rewrite Ha. cbn [page outcome]. split; [reflexivity|].
  unfold images, expanders, warnings, metrics.
  destruct (load_model_page w s) as [-> | ->]; repeat split;
    obs_simpl; reflexivity.
Qed.

(** Witness for X3: the stub whose capability returns no result. *)
Lemma empty_batch_raises_witness :
  let w := Stub.world_of Stub.empty_batch_model in
  let r := main w (Some Stub.upload) true None in
  outcome r = inl (Exc "IndexError" "list index out of range") /\
  images (page r) = [Stub.decoded] /\
  expanders (page r) = [] /\
  warnings (page r) = [] /\
  metrics (page r) = [].
Proof.
  exact (empty_batch_raises (Stub.world_of Stub.empty_batch_model)
           Stub.empty_batch_model Stub.upload Stub.decoded None
           eq_refl eq_refl eq_refl).
Defined.

(** ** A completed analysis *)



(** ** The progress bar, event by event *)

Lemma progress_events_values n : forall i,
  progress_values (progress_events i n) =
  map (fun k => Z.of_nat k + 1)%Z (seq i n).
Proof.
  induction n as [|n IH]; intros i; [reflexivity|].
  cbn [progress_events seq map]. unfold progress_values.
  rewrite !obs_cons_leaf by discriminate. cbv beta iota. cbn [app].
  f_equal. apply IH.
Qed.

Lemma progress_events_calls n : forall i,
  calls (progress_events i n) = repeat (call_sleep 0.01) n.
Proof.
  induction n as [|n IH]; intros i; [reflexivity|].
  cbn [progress_events repeat]. unfold calls.
  rewrite !obs_cons_leaf by discriminate. cbv beta iota. cbn [app].
  f_equal. apply IH.
Qed.

(** X6.  The progress bar (lines 92-95) never fails and leaves the cache as
    it is; it is created at 0 and then set to 1, 2, ..., 100 in this order,
    so it ends full, and its only calls are 100 sleeps of 0.01 s. *)
Theorem progress_bar_fills (s : option Model) :
  let r := progress_bar s in
  outcome r = inr tt /\
  store r = s /\
  progress_values (page r) = (0 :: map Z.of_nat (seq 1 100))%Z /\
  last (progress_values (page r)) = Some 100%Z /\
  calls (page r) = repeat (call_sleep 0.01) 100.
Proof.
  cbv zeta. rewrite progress_bar_run. cbn [page store outcome].
  assert (Hv : progress_values (st_progress 0 :: progress_events 0 100) =
               (0 :: map Z.of_nat (seq 1 100))%Z).
  { unfold progress_values. rewrite obs_cons_leaf by discriminate.
    cbv beta iota. cbn [app]. apply (f_equal (cons 0%Z)).
    fold (progress_values (progress_events 0 100)).
    rewrite progress_events_values, <- seq_shift, map_map.
    apply map_ext. intros k. lia. }
  assert (Hc : calls (st_progress 0 :: progress_events 0 100) =
               repeat (call_sleep 0.01) 100).
  { unfold calls. rewrite obs_cons_leaf by discriminate.
    cbv beta iota. cbn [app].
    fold (calls (progress_events 0 100)). apply progress_events_calls. }
  rewrite Hv, Hc. repeat split; reflexivity.
Qed.

(** ** The external calls of a completed analysis *)

(** X7.  In a clicked run on an upload that decodes, with a capability that
    answers and a label table that names every class, the script calls, in
    this order: the model load (unless the model is cached), the decoder on
    the uploaded bytes, the 100 sleeps of the progress bar, the resize of
    the decoded image to 640 by 640, the capability on the resized image
    with threshold 0.25, and the plot; nothing else. *)
Theorem calls_of_completed_analysis (w : World) (model : Model)
    (bytes : list Byte.byte) (img : ndarray) (results : Results)
    (rest : list Results) (s : option Model) :
  outcome (load_model w s) = inr model ->
  cv2_imdecode w bytes = inr (Some img) ->
  predict model (cv2_resize w img (640, 640)%Z) 0.25 = inr (results :: rest) ->
  Forall (labelled model) (boxes results) ->
  calls (page (main w (Some bytes) true s)) =
  (match s with
   | Some _ => []
   | None => [call_YOLO "best.pt"]
   end ++
   call_imdecode bytes
     :: repeat (call_sleep 0.01) 100 ++
        [call_resize (640, 640)%Z;
         call_predict (cv2_resize w img (640, 640)%Z) 0.25;
         call_plot])%list.
Proof.
  intros Hload Hdec Hpred Hall.
  rewrite (main_clicked_run w model bytes img s Hload Hdec). cbv zeta.
  rewrite (analysis_run_ok w model img results rest (Some model) Hpred Hall).
  rewrite summary_metrics_run. cbn [page outcome].
  assert (Hl : page (load_model w s) =
               match s with Some _ => [] | None => [ext (call_YOLO "best.pt")] end).
  { destruct s as [m|]; [reflexivity|].
    destruct (YOLO w "best.pt") as [e|m] eqn:E.
    - rewrite (load_model_failed w e E). reflexivity.
    - rewrite (load_model_fresh w m E). reflexivity. }
  rewrite Hl. unfold calls.
  destruct s as [m|]; destruct (boxes results) as [|b l]; obs_simpl;
    fold (calls (progress_events 0 100)); rewrite progress_events_calls;
    rewrite <- ?app_assoc; reflexivity.
Qed.

(** Witness for X7: the stub, from an empty cache. *)
Lemma calls_of_completed_analysis_witness :
  calls (page (main (Stub.world_of (Stub.model_of Stub.three))
                 (Some Stub.upload) true None)) =
  (call_YOLO "best.pt"
     :: call_imdecode Stub.upload
     :: repeat (call_sleep 0.01) 100 ++
        [call_resize (640, 640)%Z; call_predict Stub.resized 0.25; call_plot])%list.
Proof.
  apply (calls_of_completed_analysis
           (Stub.world_of (Stub.model_of Stub.three))
           (Stub.model_of Stub.three) Stub.upload Stub.decoded Stub.three []
           None).
  - reflexivity.
  - reflexivity.
  - reflexivity.
  - repeat constructor; vm_compute; eauto.
Defined.

(** ** The cached model across runs *)

Lemma main_rest_not_load w uploaded_file clicked :
  exists K : Model -> M unit,
    (forall model, keeps (K model)) /\
    (forall model, emits not_load (K model)) /\
    main w uploaded_file clicked =
      (emit (st_columns [1; 2; 1]%Z) ;;
       with_ (column 0 1)
         (emit (st_title "🚦 Traffic Sign Detection") ;;
          emit (st_markdown "### Advanced AI-Powered Traffic Sign Recognition" false)) ;;
       with_ (spinner "Loading AI Model...") (load_model w) ≫= K).
Proof.
  eexists. split; [|split; [|reflexivity]].
  - intros model. cbv beta. unfold show_image.
    repeat first [apply keeps_analysis | keeps_step].
  - intros model. cbv beta. emits_main.
Qed.

(** X9.  A run that finds the model in the cache leaves it there and does
    not load it again, whatever the upload and the click, and also when the
    run ends in an exception. *)
Theorem cached_model_is_reused (w : World)
    (uploaded_file : option (list Byte.byte)) (clicked : bool) (m : Model) :
  let r := main w uploaded_file clicked (Some m) in
  store r = Some m /\
  (forall path, ~ In (call_YOLO path) (calls (page r))) /\
  Forall not_load (flatten (page r)).
Proof.
  cbv zeta.
  destruct (main_rest_not_load w uploaded_file clicked) as (K & HK & HP & ->).
  pose proof (run_outcome (K m (Some m)) _ eq_refl) as Hk.
  rewrite (HK m (Some m)) in Hk.
  assert (Hrun : (emit (st_columns [1; 2; 1]%Z) ;;
                  with_ (column 0 1)
                    (emit (st_title "🚦 Traffic Sign Detection") ;;
                     emit (st_markdown
                             "### Advanced AI-Powered Traffic Sign Recognition"
                             false)) ;;
                  with_ (spinner "Loading AI Model...") (load_model w) ≫= K)
                   (Some m) =
                 mk_Run
                   (st_columns [1; 2; 1]%Z
                    :: inside (column 0 1)
                         [st_title "🚦 Traffic Sign Detection";
                          st_markdown
                            "### Advanced AI-Powered Traffic Sign Recognition"
                            false]
                    :: inside (spinner "Loading AI Model...") []
                    :: page (K m (Some m)))
                   (Some m) (outcome (K m (Some m)))).
  { pose proof (load_model_cached w m) as Hl.
    etransitivity; [run|]. reflexivity. }
  rewrite Hrun. cbn [page store].
  assert (Hall : Forall not_load
                   (flatten
                      (st_columns [1; 2; 1]%Z
                       :: inside (column 0 1)
                            [st_title "🚦 Traffic Sign Detection";
                             st_markdown
                               "### Advanced AI-Powered Traffic Sign Recognition"
                               false]
                       :: inside (spinner "Loading AI Model...") []
                       :: page (K m (Some m))))).
  { change (flatten (?a :: ?b :: ?c :: ?l))
      with (flatten [a; b; c] ++ flatten l)%list.
    apply Forall_app. split; [repeat constructor|apply HP]. }
  split; [reflexivity|split; [|exact Hall]].
  intros path Hin. apply calls_In in Hin.
  rewrite Forall_forall in Hall. apply list_elem_of_In, Hall in Hin. exact Hin.
Qed.

(** ** The footer (lines 142-147) *)

Lemma fae_bind {A B} (m : M A) (k : A -> M B) :
  emits not_footer m -> (forall a, footer_at_end (k a)) ->
  footer_at_end (m ≫= k).
Proof.
  intros Hm Hk s. unfold mbind, M_bind, bind. cbv zeta.
  specialize (Hm s). destruct (outcome (m s)) as [e|a]; cbn [page outcome].
  - exact Hm.
  - specialize (Hk a (store (m s))).
    destruct (outcome (k a (store (m s)))) as [e|b].
    + rewrite flatten_app. apply Forall_app. split; assumption.
    + destruct Hk as (body & -> & Hbody).
      exists (page (m s) ++ body)%list. split; [apply app_assoc|].
      rewrite flatten_app. apply Forall_app. split; assumption.
Qed.

Lemma fae_footer :
  footer_at_end
    (emit (st_markdown "---" false) ;;
     emit (st_markdown
             ("Made with ❤️ using YOLOv8 and Streamlit | " ++
              "[GitHub](https://github.com) | " ++
              "[Report Issue](https://github.com/issues)") false)).
Proof. intros s. exists []. split; [reflexivity|constructor]. Qed.

Ltac not_footer_side :=
  unfold not_footer, footer; cbn [In];
  let H := fresh in
  intros [H|[H|[]]]; first [discriminate H | cbn [append] in H; discriminate H].

Ltac not_footer_step :=
  lazymatch goal with
  | |- emits _ (mret _) => apply emits_ret
  | |- emits _ (raise _) => apply emits_raise
  | |- emits _ (emit _) => apply emits_emit; [not_footer_side|discriminate]
  | |- emits _ (call _ _) => apply emits_call; not_footer_side
  | |- emits _ (with_ _ _) => apply emits_with; [intros ?; not_footer_side|]
  | |- emits _ (cache_resource _) => apply emits_cache_resource
  | |- emits _ (progress_loop _ _) =>
      apply emits_progress_loop; [not_footer_side|intros ?; not_footer_side]
  | |- emits _ (_ ≫= _) => apply emits_bind; [|intros ?]
  | |- emits _ (match ?x with _ => _ end) => destruct x
  end.

Lemma detection_panels_not_footer w model bs : forall idx,
  emits not_footer (detection_panels w model idx bs).
Proof.
  induction bs as [|box rest IH]; intros idx; cbn [detection_panels].
  - apply emits_ret.
  - apply emits_bind; [|intros _; apply IH].
    unfold detection_panel, getitem. destruct (xyxy box) as [[[x1 y1] x2] y2].
    repeat not_footer_step.
Qed.

Ltac not_footer_tac :=
  unfold load_model, show_image, analysis, resize, first, progress_bar,
    detailed_analysis, summary_metrics;
  repeat
    lazymatch goal with
    | |- emits _ (detection_panels _ _ _ _) => apply detection_panels_not_footer
    | |- _ => not_footer_step
    end.

(** X8.  A run of [main] that completes ends its page with the footer, the
    rule and the credits line, and shows neither of the two anywhere before;
    a run that ends in an exception shows neither of the two at all.  So the
    footer is on the page exactly when the script ran to its end. *)
Theorem footer_closes_completed_runs (w : World)
    (uploaded_file : option (list Byte.byte)) (clicked : bool)
    (s : option Model) :
  let r := main w uploaded_file clicked s in
  match outcome r with
  | inr _ =>
      exists body,
        page r = (body ++ footer)%list /\ Forall not_footer (flatten body)
  | inl _ => Forall not_footer (flatten (page r))
  end.
Proof.
  cbv zeta. revert s.
  change (footer_at_end (main w uploaded_file clicked)).
  unfold main.
  repeat
    lazymatch goal with
    | |- footer_at_end (emit (st_markdown "---" false) ≫= _) => apply fae_footer
    | |- footer_at_end (_ ≫= _) => apply fae_bind; [not_footer_tac|intros ?]
    end.
Qed.

(** ** A load that fails (lines 44-46 and 65-66) *)

(** X12.  When [YOLO("best.pt")] raises and the cache is empty, the run ends
    in that exception inside the first spinner: the page is the header and
    the spinner, without upload box or footer, and nothing is cached, so the
    next run calls [YOLO("best.pt")] again. *)
Theorem failed_load_stops_run (w : World)
    (uploaded_file : option (list Byte.byte)) (clicked : bool) (e : PyExc) :
  YOLO w "best.pt" = inl e ->
  let r := main w uploaded_file clicked None in
  outcome r = inl e /\
  store r = None /\
  page r =
    [st_columns [1; 2; 1]%Z;
     inside (column 0 1)
       [st_title "🚦 Traffic Sign Detection";
        st_markdown "### Advanced AI-Powered Traffic Sign Recognition" false];
     inside (spinner "Loading AI Model...") [ext (call_YOLO "best.pt")]] /\
  calls (page (main w uploaded_file clicked (store r))) = [call_YOLO "best.pt"].
Proof.
  intros Hload.
  destruct (main_runs w uploaded_file clicked) as (rest & Hrun).
  specialize (Hrun None). rewrite (load_model_failed w e Hload) in Hrun.
  cbn [outcome page] in Hrun. cbv zeta. rewrite Hrun. cbn [outcome store page].
  rewrite Hrun. repeat split; reflexivity.
Qed.

(** Witness for X12: the weights file is missing. *)
Lemma failed_load_stops_run_witness :
  let r := main Stub.no_weights (Some Stub.upload) true None in
  outcome r = inl (Exc "FileNotFoundError" "best.pt") /\
  store r = None /\
  page r =
    [st_columns [1; 2; 1]%Z;
     inside (column 0 1)
       [st_title "🚦 Traffic Sign Detection";
        st_markdown "### Advanced AI-Powered Traffic Sign Recognition" false];
     inside (spinner "Loading AI Model...") [ext (call_YOLO "best.pt")]] /\
  calls (page (main Stub.no_weights (Some Stub.upload) true (store r))) =
    [call_YOLO "best.pt"].
Proof.
  apply (failed_load_stops_run Stub.no_weights (Some Stub.upload) true
           (Exc "FileNotFoundError" "best.pt")).
  reflexivity.
Defined.
